(** * ss_lv_monitor.py: extraction, deduplication and matching pipeline

    A shallow embedding of [SSLVMonitor] (src/ss_lv_monitor.py) and the
    properties of its field normalisers, record extractor, seen-state store,
    criteria matcher and run orchestrator.

    Conventions of the embedding.
    - A Python [str] is the list of its Unicode code points ([pystr]);
      literals of the source are written [py "..."], which decodes the
      UTF-8 bytes of the literal the way the interpreter reads the file.
    - What the interpreter and its libraries decide (the Unicode database
      behind [\d] and [float], [str.lower], binary64 rounding, [json.load])
      is a [PyRuntime]; the facts used about it are stated where they are
      used, and [reference_runtime] shows they can be met.
    - An operation that can raise returns [exn + A]; a method that touches
      the file, the clock or the log is a computation in the monad [M] over
      [world]; [try]/[except] is [try_except].
    - [self.known_listings] is a [gset pystr]: [list(set)] is [elements],
      an order the program does not control. *)

From Stdlib Require Import ZArith NArith QArith Qreduction List Bool String Ascii Lia.
From stdpp Require Import base option list gmap sets.
Import ListNotations.

Set Warnings "-register-all,-clear-no-such-hyp".
Local Open Scope N_scope.

(** ** Strings *)

Definition codepoint := N.
Definition pystr := list codepoint.

Definition bytes_of_string (s : string) : list N :=
  map N_of_ascii (list_ascii_of_string s).

(** UTF-8 decoding of a source literal (well-formed input: the source file
    is valid UTF-8; a truncated sequence is dropped). *)
Fixpoint utf8_decode (bs : list N) : pystr :=
  match bs with
  | [] => []
  | b0 :: r0 =>
    if b0 <? 128 then b0 :: utf8_decode r0
    else match r0 with
    | [] => []
    | b1 :: r1 =>
      if b0 <? 224 then
        (N.lor (N.shiftl (N.land b0 31) 6) (N.land b1 63)) :: utf8_decode r1
      else match r1 with
      | [] => []
      | b2 :: r2 =>
        if b0 <? 240 then
          (N.lor (N.shiftl (N.land b0 15) 12)
             (N.lor (N.shiftl (N.land b1 63) 6) (N.land b2 63))) :: utf8_decode r2
        else match r2 with
        | [] => []
        | b3 :: r3 =>
          (N.lor (N.shiftl (N.land b0 7) 18)
             (N.lor (N.shiftl (N.land b1 63) 12)
                (N.lor (N.shiftl (N.land b2 63) 6) (N.land b3 63)))) :: utf8_decode r3
        end
      end
    end
  end.

Definition py (s : string) : pystr := utf8_decode (bytes_of_string s).

(** [s.startswith(p)] *)
Fixpoint startswith (p s : pystr) : bool :=
  match p, s with
  | [], _ => true
  | _ :: _, [] => false
  | a :: p', b :: s' => (a =? b) && startswith p' s'
  end.

(** [needle in hay] on strings: [needle] occurs as a contiguous run. *)
Fixpoint str_in (needle hay : pystr) : bool :=
  startswith needle hay ||
  match hay with
  | [] => false
  | _ :: hay' => str_in needle hay'
  end.

(** [s.replace(old, new)]: non-overlapping occurrences, left to right.
    [skip] counts the characters of a matched occurrence still to be
    consumed. With [old] empty Python inserts [new] around every character. *)
Fixpoint replace_from (old new : pystr) (skip : nat) (s : pystr) : pystr :=
  match s with
  | [] => []
  | c :: s' =>
    match skip with
    | S k => replace_from old new k s'
    | O =>
      if startswith old s
      then new ++ replace_from old new (length old - 1) s'
      else c :: replace_from old new 0 s'
    end
  end.

Definition str_replace (old new s : pystr) : pystr :=
  match old with
  | [] => new ++ flat_map (fun c => c :: new) s
  | _ :: _ => replace_from old new 0 s
  end.

(** [sep.join(parts)] *)
Fixpoint str_join (sep : pystr) (parts : list pystr) : pystr :=
  match parts with
  | [] => []
  | [p] => p
  | p :: rest => p ++ sep ++ str_join sep rest
  end.

Definition is_ascii (c : codepoint) : bool := c <? 128.

(** Lower-casing of an ASCII letter; other code points unchanged. *)
Definition ascii_lower (c : codepoint) : codepoint :=
  if (65 <=? c) && (c <=? 90) then c + 32 else c.

(** The value of an ASCII digit. *)
Definition ascii_decimal (c : codepoint) : option N :=
  if (48 <=? c) && (c <=? 57) then Some (c - 48) else None.

(** ** Numbers

    A price or an area is the int [0] or a float that [float()] made from
    digits: a finite rational or, past the binary64 range, [inf]. *)
Inductive pynum :=
| Fin (q : Q)
| PosInf.

Definition Qlt_bool (x y : Q) : bool := negb (Qle_bool y x).

(** [a < b] *)
Definition num_lt (a b : pynum) : bool :=
  match a, b with
  | Fin x, Fin y => Qlt_bool x y
  | Fin _, PosInf => true
  | PosInf, _ => false
  end.

(** [a > b] *)
Definition num_gt (a b : pynum) : bool := num_lt b a.

(** [a == 0] *)
Definition num_is_zero (a : pynum) : Prop :=
  match a with
  | Fin q => (q == 0)%Q
  | PosInf => False
  end.

Fixpoint is_pow2 (p : positive) : bool :=
  match p with
  | xH => true
  | xO p' => is_pow2 p'
  | xI _ => false
  end.

(** A sufficient test for a rational to be a binary64 value: in lowest
    terms it is m / 2^k with |m| < 2^53 and k <= 1074. *)
Definition binary64_exact (q : Q) : bool :=
  let r := Qred q in
  (Z.abs (Qnum r) <? 2 ^ 53)%Z && is_pow2 (Qden r) && (Pos.size_nat (Qden r) <=? 1075)%nat.

(** ** JSON documents, as [json.load] returns them

    A number is kept as the text of its literal; [JDict] lists the items
    of the dict, whose keys are distinct. *)
Inductive json :=
| JNull
| JBool (b : bool)
| JNum (literal : pystr)
| JStr (s : pystr)
| JList (items : list json)
| JDict (items : list (pystr * json)).

(** ** The interpreter and its libraries *)
Class PyRuntime := {
  (** the Unicode database: the value of a decimal digit (category Nd),
      as the [re] module's [\d] and [float()] read it *)
  unicode_decimal : codepoint -> option N;
  (** [str.lower()] *)
  str_lower : pystr -> pystr;
  (** rounding a decimal literal's value to binary64 *)
  float_round : Q -> pynum;
  (** [json.load] on a file's text; [None] when it raises *)
  json_load : pystr -> option json;
}.

(** A runtime that knows ASCII only and computes exactly. *)
Definition reference_runtime : PyRuntime := {|
  unicode_decimal := ascii_decimal;
  str_lower := map ascii_lower;
  float_round := fun q => Fin (Qred q);
  json_load := fun _ => None;
|}.

(** ** Exceptions *)
Inductive exn :=
| ValueError
| TypeError
| AttributeError
| OSError
| JSONDecodeError
| RequestException.

Definition comma : codepoint := 44.
Definition period : codepoint := 46.

(** The longest prefix of [s] whose characters satisfy [f], and the rest. *)
Fixpoint span (f : codepoint -> bool) (s : pystr) : pystr * pystr :=
  match s with
  | [] => ([], [])
  | c :: s' =>
    if f c then let '(a, b) := span f s' in (c :: a, b) else ([], s)
  end.

(** ** Field normaliser: [extract_price], [extract_area] *)
Section Normaliser.
Context {rt : PyRuntime}.

(** [\d] of the [re] module on [str] patterns: a Unicode decimal digit. *)
Definition is_decimal (c : codepoint) : bool :=
  match unicode_decimal c with
  | Some _ => true
  | None => false
  end.

Definition digit_value (c : codepoint) : N :=
  match unicode_decimal c with
  | Some d => d
  | None => 0
  end.

(** The number written by a run of decimal digits. *)
Definition digits_value (ds : pystr) : N :=
  fold_left (fun acc c => 10 * acc + digit_value c) ds 0.

(** The value of [ip.fp]. *)
Definition decimal_value (ip fp : pystr) : Q :=
  Qmake (Z.of_N (digits_value (ip ++ fp))) (Z.to_pos (10 ^ Z.of_nat (length fp))).

(** The exact value that a string of decimal digits and periods writes:
    digits with an optional period, at least one digit. *)
Definition parse_decimal (s : pystr) : option Q :=
  let '(ip, rest) := span is_decimal s in
  match rest with
  | [] =>
    match ip with
    | [] => None
    | _ :: _ => Some (decimal_value ip [])
    end
  | c :: fp =>
    if (c =? period) && forallb is_decimal fp
       && negb (Nat.eqb (length ip + length fp) 0)
    then Some (decimal_value ip fp)
    else None
  end.

(** [float(s)] for a string [s] of decimal digits and periods, which is
    all that [extract_price] and [extract_area] pass to it
    ([price_clean_chars], [re_search_number_chars]): the written value
    rounded to binary64, or a ValueError. *)
Definition py_float (s : pystr) : exn + pynum :=
  match parse_decimal s with
  | Some q => inr (float_round q)
  | None => inl ValueError
  end.

(** [re.sub(r'[^\d,.]', '', s)] *)
Definition re_sub_non_price (s : pystr) : pystr :=
  List.filter (fun c => is_decimal c || (c =? comma) || (c =? period)) s.

(** [extract_price]; [None] is Python's [None]. *)
Definition extract_price (price_text : option pystr) : exn + pynum :=
  match price_text with
  | None | Some [] => inr (Fin 0)
  | Some text =>
    let price_clean := re_sub_non_price text in
    let price_clean := str_replace [comma] [] price_clean in
    match py_float price_clean with
    | inr v => inr v
    | inl ValueError | inl TypeError => inr (Fin 0)
    | inl e => inl e
    end
  end.

(** The match of [(\d+(?:\.\d+)?)] at the start of [s], which begins
    with a digit: the digits, then a period and digits when at least one
    digit follows the period. *)
Definition match_number (s : pystr) : pystr :=
  let '(ip, rest) := span is_decimal s in
  match rest with
  | c :: rest' =>
    if c =? period then
      match span is_decimal rest' with
      | ([], _) => ip
      | (fp, _) => ip ++ period :: fp
      end
    else ip
  | [] => ip
  end.

(** [re.search(r'(\d+(?:\.\d+)?)', s)]: group 1 of the leftmost match. *)
Fixpoint re_search_number (s : pystr) : option pystr :=
  match s with
  | [] => None
  | c :: s' => if is_decimal c then Some (match_number s) else re_search_number s'
  end.

(** [extract_area] *)
Definition extract_area (area_text : option pystr) : exn + pynum :=
  match area_text with
  | None | Some [] => inr (Fin 0)
  | Some text =>
    match re_search_number text with
    | Some group1 =>
      match py_float group1 with
      | inr v => inr v
      | inl ValueError | inl TypeError => inr (Fin 0)
      | inl e => inl e
      end
    | None => inr (Fin 0)
    end
  end.
End Normaliser.

(** ** Data model *)

(** One scraped advertisement: the dict built by [scrape_listings]. *)
Record listing := {
  listing_id : pystr;
  title : pystr;
  price : pynum;
  area : pynum;
  description : pystr;
  link : pystr;
  source_url : pystr;
  scraped_at : pystr;
}.

(** The filter: the dict [SEARCH_CRITERIA]. *)
Record search_criteria := {
  max_price : pynum;
  min_price : pynum;
  keywords_include : list pystr;
  keywords_exclude : list pystr;
  min_area : pynum;
}.

Definition SEARCH_CRITERIA : search_criteria := {|
  max_price := Fin 150000;
  min_price := Fin 10000;
  keywords_include := [py "māja"; py "zeme"; py "privātmāja"; py "dzīvoklis"];
  keywords_exclude := [py "bojāts"; py "avārijas"; py "slēgts"];
  min_area := Fin 50;
|}.

Definition URLS_TO_MONITOR : list pystr :=
  [py "https://www.ss.lv/lv/real-estate/homes-summer-residences/riga-region/olaines-pag/filter/";
   py "https://www.ss.lv/lv/real-estate/plots-and-lands/riga-region/olaines-pag/filter/"].

(** The parsed page, as far as [scrape_listings] looks at it. A [td] cell
    shows its [get_text(strip=True)] and its first [a] element, if any,
    with that element's [href] attribute, if any. A [tr] row shows its [id]
    attribute and the result of [find_all('td')]. *)
Record td := {
  get_text : pystr;
  find_a : option (option pystr);
}.

Record tr := {
  tr_id : option pystr;
  find_all_td : list td;
}.

(** All [tr] elements of a page, in document order. *)
Definition soup := list tr.

(** ** State and effects *)

(** [DATA_FILE] on disk: missing, present but not readable as UTF-8 text
    (so that [open]/[read] raise), or holding a text. *)
Inductive disk_state :=
| Absent
| Unreadable
| Present (text : pystr).

(** How a write of [DATA_FILE] goes: [WriteFails n] raises after [open]
    truncated the file and [n] characters of the new text reached it. *)
Inductive io_fault :=
| NoFault
| OpenFails
| WriteFails (written : nat).

(** The records handed to [logger]. *)
Inductive log_record :=
| Error_loading_known_listings (e : exn)
| Error_saving_known_listings (e : exn)
| Error_checking_criteria (e : exn)
| Info_scraping_url (url : pystr)
| Error_parsing_listing_row (e : exn)
| Error_scraping_url (url : pystr) (e : exn)
| Info_found_listings (n : nat) (url : pystr)
| Info_new_matching_listing (title : pystr) (price : pynum)
| Error_checking_url (url : pystr) (e : exn).

(** The monitor object and the part of the world it writes. [clock] counts
    the calls of [datetime.now()] so far. *)
Record state := {
  known_listings : gset pystr;
  data_file : disk_state;
  clock : nat;
  log : list log_record;
}.

(** What one run reads from outside: what fetching and parsing a URL
    gives ([None]: [session.get], [raise_for_status] or the parser raised),
    what the n-th [datetime.now().isoformat()] returns, and how the write
    of the data file goes. *)
Record env := {
  web : pystr -> option soup;
  now : nat -> pystr;
  save_fault : io_fault;
}.

(** Computations: a result or a raised exception, and the new state. *)
Definition M (A : Type) : Type := state -> (exn + A) * state.

#[export] Instance M_ret : MRet M := fun A a s => (inr a, s).

#[export] Instance M_bind : MBind M := fun A B f c s =>
  match c s with
  | (inr a, s') => f a s'
  | (inl e, s') => (inl e, s')
  end.

Definition raise {A} (e : exn) : M A := fun s => (inl e, s).

(** [try: body except Exception as e: handler e] *)
Definition try_except {A} (body : M A) (handler : exn -> M A) : M A := fun s =>
  match body s with
  | (inl e, s') => handler e s'
  | r => r
  end.

(** A pure operation that may raise, inside [M]. *)
Definition lift {A} (r : exn + A) : M A := fun s => (r, s).

Definition logger (r : log_record) : M unit := fun s =>
  (inr tt, {| known_listings := known_listings s; data_file := data_file s;
              clock := clock s; log := log s ++ [r] |}).

(** [datetime.now().isoformat()] *)
Definition datetime_now (ev : env) : M pystr := fun s =>
  (inr (now ev (clock s)),
   {| known_listings := known_listings s; data_file := data_file s;
      clock := S (clock s); log := log s |}).

Definition get_known : M (gset pystr) := fun s => (inr (known_listings s), s).

Definition set_known (k : gset pystr) : M unit := fun s =>
  (inr tt, {| known_listings := k; data_file := data_file s;
              clock := clock s; log := log s |}).

Definition get_data_file : M disk_state := fun s => (inr (data_file s), s).

Definition set_data_file (d : disk_state) : M unit := fun s =>
  (inr tt, {| known_listings := known_listings s; data_file := d;
              clock := clock s; log := log s |}).

Definition is_empty (s : pystr) : bool :=
  match s with
  | [] => true
  | _ :: _ => false
  end.

(** ** Criteria matcher: [meets_criteria] *)
Section Matcher.
Context {rt : PyRuntime}.

(** [any(keyword.lower() in text_content for keyword in keywords)] *)
Definition any_keyword_in (keywords : list pystr) (text_content : pystr) : bool :=
  existsb (fun keyword => str_in (str_lower keyword) text_content) keywords.

(** The body of the [try]. On a [listing] record every key is present and
    every comparison is between numbers, so no statement of it raises. *)
Definition criteria_check (crit : search_criteria) (l : listing) : bool :=
  if num_gt (price l) (Fin 0)
     && (num_lt (price l) (min_price crit) || num_gt (price l) (max_price crit))
  then false
  else if num_gt (area l) (Fin 0) && num_lt (area l) (min_area crit)
  then false
  else
    let text_content := str_lower (title l ++ [32] ++ description l) in
    if negb (match keywords_include crit with [] => true | _ => false end)
       && negb (any_keyword_in (keywords_include crit) text_content)
    then false
    else if negb (match keywords_exclude crit with [] => true | _ => false end)
            && any_keyword_in (keywords_exclude crit) text_content
    then false
    else true.

Definition meets_criteria (crit : search_criteria) (l : listing) : M bool :=
  try_except
    (mret (criteria_check crit l))
    (fun e => logger (Error_checking_criteria e);; mret false).
End Matcher.

(** ** Record extractor: [scrape_listings] *)
Section Extractor.
Context {rt : PyRuntime}.

(** [soup.find_all('tr', id=lambda x: x and x.startswith('tr_'))] *)
Definition find_listing_rows (doc : soup) : list tr :=
  List.filter
    (fun row =>
       match tr_id row with
       | Some x => negb (is_empty x) && startswith (py "tr_") x
       | None => false
       end)
    doc.

(** The loop over [cells] that looks for the title cell: the first cell
    whose first [a] element has a non-empty [href]; the link is made
    absolute. *)
Fixpoint find_title_cell (cells : list td) : option (td * pystr) :=
  match cells with
  | [] => None
  | cell :: rest =>
    match find_a cell with
    | Some (Some href) =>
      if negb (is_empty href) then
        Some (cell,
              if negb (startswith (py "http") href)
              then py "https://www.ss.lv" ++ href
              else href)
      else find_title_cell rest
    | _ => find_title_cell rest
    end
  end.

(** The loop that extracts the price: the first cell with a euro sign or
    [EUR] in its text. *)
Fixpoint find_price (cells : list td) : exn + pynum :=
  match cells with
  | [] => inr (Fin 0)
  | cell :: rest =>
    let cell_text := get_text cell in
    if str_in (py "€") cell_text || str_in (py "EUR") cell_text
    then extract_price (Some cell_text)
    else find_price rest
  end.

(** The loop that extracts the area: the first cell with [m²] or [m2]. *)
Fixpoint find_area (cells : list td) : exn + pynum :=
  match cells with
  | [] => inr (Fin 0)
  | cell :: rest =>
    let cell_text := get_text cell in
    if str_in (py "m²") cell_text || str_in (py "m2") cell_text
    then extract_area (Some cell_text)
    else find_area rest
  end.

(** The loop that collects [description_parts]. *)
Fixpoint description_parts (title : pystr) (cells : list td) : list pystr :=
  match cells with
  | [] => []
  | cell :: rest =>
    let text := get_text cell in
    if negb (is_empty text)
       && negb (bool_decide (text = title))
       && negb (str_in (py "€") text)
       && negb (str_in (py "m²") text)
    then text :: description_parts title rest
    else description_parts title rest
  end.

(** The body of the loop over [listing_rows], with its [try]; [None]
    when the row is skipped by [continue] or by the [except]. *)
Definition scrape_row (ev : env) (url : pystr) (row : tr) : M (option listing) :=
  try_except
    (let listing_id := str_replace (py "tr_") [] (default [] (tr_id row)) in
     if is_empty listing_id then mret None
     else
       let cells := find_all_td row in
       if (length cells <? 4)%nat then mret None
       else
         match find_title_cell cells with
         | None => mret None
         | Some (title_cell, link) =>
           let title := get_text title_cell in
           price ← lift (find_price cells);
           area ← lift (find_area cells);
           let parts := description_parts title cells in
           scraped_at ← datetime_now ev;
           mret (Some {| listing_id := listing_id;
                         title := title;
                         price := price;
                         area := area;
                         description := str_join (py " | ") parts;
                         link := link;
                         source_url := url;
                         scraped_at := scraped_at |})
         end)
    (fun e => logger (Error_parsing_listing_row e);; mret None).

(** [for row in listing_rows: ...], appending to [listings]. *)
Fixpoint scrape_rows (ev : env) (url : pystr) (rows : list tr)
    (listings : list listing) : M (list listing) :=
  match rows with
  | [] => mret listings
  | row :: rest =>
    r ← scrape_row ev url row;
    scrape_rows ev url rest
      (match r with
       | Some l => listings ++ [l]
       | None => listings
       end)
  end.

(** [session.get], [raise_for_status] and [BeautifulSoup]. *)
Definition fetch (ev : env) (url : pystr) : M soup :=
  match web ev url with
  | Some doc => mret doc
  | None => raise RequestException
  end.

(** [scrape_listings]. Inside the outer [try] only the fetch can raise
    past the per-row [try], and it comes before the loop: in the outer
    handler [listings] is still the empty list. *)
Definition scrape_listings (ev : env) (url : pystr) : M (list listing) :=
  listings ← try_except
    (logger (Info_scraping_url url);;
     doc ← fetch ev url;
     scrape_rows ev url (find_listing_rows doc) [])
    (fun e => logger (Error_scraping_url url e);; mret []);
  logger (Info_found_listings (length listings) url);;
  mret listings.
End Extractor.

(** ** Seen-state store: [load_known_listings], [save_known_listings] *)

Definition quote : codepoint := 34.
Definition backslash : codepoint := 92.
Definition newline : codepoint := 10.

Definition hex_digit (n : N) : codepoint := if n <? 10 then 48 + n else 87 + n.

(** [json]'s escaping of one character with [ensure_ascii=False]. *)
Definition json_escape_char (c : codepoint) : pystr :=
  if c =? quote then [backslash; quote]
  else if c =? backslash then [backslash; backslash]
  else if c =? 10 then [backslash; 110]
  else if c =? 13 then [backslash; 114]
  else if c =? 9 then [backslash; 116]
  else if c =? 8 then [backslash; 98]
  else if c =? 12 then [backslash; 102]
  else if c <? 32 then [backslash; 117; 48; 48; hex_digit (c / 16); hex_digit (c mod 16)]
  else [c].

Definition json_string (s : pystr) : pystr :=
  quote :: flat_map json_escape_char s ++ [quote].

(** A list of strings at nesting depth one, with [indent=2]. *)
Definition json_string_list (items : list pystr) : pystr :=
  match items with
  | [] => py "[]"
  | _ :: _ =>
    py "[" ++ [newline] ++ py "    "
    ++ str_join (py "," ++ [newline] ++ py "    ") (map json_string items)
    ++ [newline] ++ py "  ]"
  end.

(** The text that [json.dump(data, f, indent=2, ensure_ascii=False)]
    writes for [data = {'known_listings': ids, 'last_updated': stamp}]. *)
Definition json_dump (ids : list pystr) (stamp : pystr) : pystr :=
  py "{" ++ [newline]
  ++ py "  " ++ json_string (py "known_listings") ++ py ": " ++ json_string_list ids
  ++ py "," ++ [newline]
  ++ py "  " ++ json_string (py "last_updated") ++ py ": " ++ json_string stamp
  ++ [newline] ++ py "}".

Section Store.
Context {rt : PyRuntime}.

(** [data.get(key, default)]: only a dict has [get]. *)
Definition dict_get (data : json) (key : pystr) (dflt : json) : exn + json :=
  match data with
  | JDict items =>
    inr (match List.find (fun kv => bool_decide (fst kv = key)) items with
         | Some kv => snd kv
         | None => dflt
         end)
  | _ => inl AttributeError
  end.

(** The members [set(...)] takes from a list: a list or dict member is
    unhashable. The state is a [Set[str]]; a number, boolean or [null]
    member can equal no listing id and is left out of the model's set. *)
Fixpoint set_of_items (items : list json) : exn + gset pystr :=
  match items with
  | [] => inr ∅
  | JList _ :: _ | JDict _ :: _ => inl TypeError
  | JStr s :: rest =>
    match set_of_items rest with
    | inr k => inr ({[ s ]} ∪ k)
    | inl e => inl e
    end
  | _ :: rest => set_of_items rest
  end.

(** [set(v)]: the items of a list, the characters of a string, the keys
    of a dict; anything else is not iterable. *)
Definition py_set (v : json) : exn + gset pystr :=
  match v with
  | JList items => set_of_items items
  | JStr s => inr (list_to_set (map (fun c => [c]) s))
  | JDict items => inr (list_to_set (map fst items))
  | JNull | JBool _ | JNum _ => inl TypeError
  end.

(** [load_known_listings]; the [try] block yields [None] when it falls
    through its [if] without returning. *)
Definition load_known_listings : M (gset pystr) :=
  r ← try_except
    (d ← get_data_file;
     match d with
     | Absent => mret None
     | Unreadable => raise OSError
     | Present text =>
       match json_load text with
       | None => raise JSONDecodeError
       | Some data =>
         v ← lift (dict_get data (py "known_listings") (JList []));
         k ← lift (py_set v);
         mret (Some k)
       end
     end)
    (fun e => logger (Error_loading_known_listings e);; mret None);
  match r with
  | Some k => mret k
  | None => mret ∅
  end.

(** [__init__] *)
Definition init : M unit :=
  k ← load_known_listings;
  set_known k.
End Store.

(** [with open(DATA_FILE, 'w') as f: json.dump(...)] *)
Definition write_data_file (ev : env) (text : pystr) : M unit :=
  match save_fault ev with
  | NoFault => set_data_file (Present text)
  | OpenFails => raise OSError
  | WriteFails n => set_data_file (Present (take n text));; raise OSError
  end.

Definition save_known_listings (ev : env) : M unit :=
  try_except
    (k ← get_known;
     stamp ← datetime_now ev;
     write_data_file ev (json_dump (elements k) stamp))
    (fun e => logger (Error_saving_known_listings e)).

(** ** Run orchestrator: [check_for_new_listings] *)
Section Orchestrator.
Context {rt : PyRuntime}.

(** [for listing in listings: ...], appending to
    [new_matching_listings]. *)
Fixpoint classify (crit : search_criteria) (listings : list listing)
    (new_matching_listings : list listing) : M (list listing) :=
  match listings with
  | [] => mret new_matching_listings
  | l :: rest =>
    known ← get_known;
    if bool_decide (listing_id l ∉ known) then
      set_known ({[ listing_id l ]} ∪ known);;
      ok ← meets_criteria crit l;
      if ok : bool then
        logger (Info_new_matching_listing (title l) (price l));;
        classify crit rest (new_matching_listings ++ [l])
      else classify crit rest new_matching_listings
    else classify crit rest new_matching_listings
  end.

(** [for url in URLS_TO_MONITOR: try: ... except ...]. The body never
    raises ([check_url_body_returns]), so the list the handler sees is
    the one from before the URL. [time.sleep(2)] changes nothing here. *)
Fixpoint check_urls (ev : env) (crit : search_criteria) (urls : list pystr)
    (new_matching_listings : list listing) : M (list listing) :=
  match urls with
  | [] => mret new_matching_listings
  | url :: rest =>
    found ← try_except
      (listings ← scrape_listings ev url;
       classify crit listings new_matching_listings)
      (fun e => logger (Error_checking_url url e);; mret new_matching_listings);
    check_urls ev crit rest found
  end.

Definition check_for_new_listings (ev : env) (urls : list pystr)
    (crit : search_criteria) : M (list listing) :=
  new_matching_listings ← check_urls ev crit urls [];
  save_known_listings ev;;
  mret new_matching_listings.
End Orchestrator.

(** ** Notions used to state the properties *)

(** [needle] occurs in [hay] as a contiguous run. *)
Definition substring (needle hay : pystr) : Prop :=
  ∃ before after, hay = before ++ needle ++ after.

Definition not_decimal {rt : PyRuntime} (c : codepoint) : bool := negb (is_decimal c).

Definition starts_with_digit {rt : PyRuntime} (s : pystr) : bool :=
  match s with
  | c :: _ => is_decimal c
  | [] => false
  end.

(** [s] writes a decimal number with integer digits [ip] and fraction
    digits [fp]: digits, or digits around one period, with at least one
    digit. *)
Inductive decimal_literal {rt : PyRuntime} : pystr -> pystr -> pystr -> Prop :=
| literal_integer ip :
    ip ≠ [] -> forallb is_decimal ip = true ->
    decimal_literal ip ip []
| literal_point ip fp :
    ip ≠ [] ∨ fp ≠ [] ->
    forallb is_decimal ip = true -> forallb is_decimal fp = true ->
    decimal_literal (ip ++ period :: fp) ip fp.

(** What the specification says [parsePrice] cleans away: first every
    character that is not a digit, a comma or a period, then the commas. *)
Definition cleaned_price_text {rt : PyRuntime} (text : pystr) : pystr :=
  List.filter (fun c => negb (c =? comma))
    (List.filter (fun c => is_decimal c || (c =? comma) || (c =? period)) text).

(** The first number of [text]: after a digit-free [before] come the
    digits [ip]; group 1 of the match is [ip], or [ip.fp] when a period and
    the digits [fp] follow. *)
Inductive first_number {rt : PyRuntime} (text : pystr) : pystr -> pystr -> Prop :=
| first_integer before ip rest :
    text = before ++ ip ++ rest ->
    forallb not_decimal before = true ->
    ip ≠ [] -> forallb is_decimal ip = true ->
    starts_with_digit rest = false ->
    (∀ rest', rest = period :: rest' -> starts_with_digit rest' = false) ->
    first_number text ip []
| first_decimal before ip fp rest :
    text = before ++ ip ++ period :: fp ++ rest ->
    forallb not_decimal before = true ->
    ip ≠ [] -> forallb is_decimal ip = true ->
    fp ≠ [] -> forallb is_decimal fp = true ->
    starts_with_digit rest = false ->
    first_number text ip fp.

(** Text of ASCII characters and euro signs. *)
Definition plain (c : codepoint) : bool := (c <? 128) || (c =? 8364).

(** [c] run from [s] returns a value, without raising, and the value and
    the final state satisfy [Q]. *)
Definition returns {A} (c : M A) (s : state) (Q : A -> state -> Prop) : Prop :=
  ∃ a s', c s = (inr a, s') ∧ Q a s'.

(** The listing id that [scrape_listings] reads off a row. *)
Definition row_listing_id (row : tr) : pystr :=
  str_replace (py "tr_") [] (default [] (tr_id row)).

(** The row passes the three [continue] tests of the row loop. *)
Definition row_listed (row : tr) : bool :=
  negb (is_empty (row_listing_id row))
  && negb (length (find_all_td row) <? 4)%nat
  && bool_decide (is_Some (find_title_cell (find_all_td row))).

(** The ids of the records that scraping [url] yields. *)
Definition scraped_ids (ev : env) (url : pystr) : list pystr :=
  match web ev url with
  | Some doc => map row_listing_id (List.filter row_listed (find_listing_rows doc))
  | None => []
  end.

(** The record [l] is the one the row loop builds from [row]. *)
Definition row_produces {rt : PyRuntime} (url : pystr) (row : tr) (l : listing) : Prop :=
  row_listed row = true
  ∧ listing_id l = row_listing_id row
  ∧ source_url l = url
  ∧ (∃ title_cell,
       find_title_cell (find_all_td row) = Some (title_cell, link l)
       ∧ title l = get_text title_cell)
  ∧ find_price (find_all_td row) = inr (price l)
  ∧ find_area (find_all_td row) = inr (area l)
  ∧ description l = str_join (py " | ") (description_parts (title l) (find_all_td row)).

(** The monitor's set and the data file are the same in both states. *)
Definition same_store (s s' : state) : Prop :=
  known_listings s' = known_listings s ∧ data_file s' = data_file s.

(** The document that [json.load] makes of a dump of [ids] and [stamp]. *)
Definition state_document (ids : list pystr) (stamp : pystr) : json :=
  JDict [(py "known_listings", JList (map JStr ids));
         (py "last_updated", JStr stamp)].

(** A new process after [s]: a new monitor object, before [__init__] has
    loaded anything; the file, the clock and the log go on. *)
Definition restart (s : state) : state :=
  {| known_listings := ∅; data_file := data_file s; clock := clock s; log := log s |}.

(** [main] in single mode, up to the notification: a new monitor, then
    one check. *)
Definition run_process {rt : PyRuntime} (ev : env) (urls : list pystr)
    (crit : search_criteria) : M (list listing) :=
  init;; check_for_new_listings ev urls crit.

(** ** A scenario: one page with two listings *)

Definition text_cell (t : string) : td := {| get_text := py t; find_a := None |}.

Definition empty_cell : td := {| get_text := []; find_a := None |}.

Definition link_cell (t href : string) : td :=
  {| get_text := py t; find_a := Some (Some (py href)) |}.

Definition example_row_a1 : tr :=
  {| tr_id := Some (py "tr_a1");
     find_all_td := [empty_cell; link_cell "Māja Olainē" "/msg/lv/a1.html";
                     text_cell "Olaine"; text_cell "80 m²"; text_cell "50,000 €"] |}.

Definition example_row_a2 : tr :=
  {| tr_id := Some (py "tr_a2");
     find_all_td := [empty_cell; link_cell "Māja Jaunolainē" "/msg/lv/a2.html";
                     text_cell "Jaunolaine"; text_cell "120 m²"; text_cell "200,000 €"] |}.

(** A row whose price and area cells use [EUR] and [m2]. *)
Definition example_row_eur : tr :=
  {| tr_id := Some (py "tr_a3");
     find_all_td := [link_cell "House" "/msg/lv/a3.html"; text_cell "100 EUR";
                     text_cell "50 m2"; text_cell "Olaine"] |}.

(** A row with an id and a link, and three cells. *)
Definition example_row_short : tr :=
  {| tr_id := Some (py "tr_a4");
     find_all_td := [link_cell "Zeme" "/msg/lv/a4.html"; text_cell "Olaine";
                     text_cell "9,000 €"] |}.

Definition example_url : pystr := py "https://www.ss.lv/lv/real-estate/homes-summer-residences/riga-region/olaines-pag/filter/".

Definition example_stamp : pystr := py "2024-05-01T08:00:00.000000".

(** The first monitored URL shows the two listings; the other fails. *)
Definition example_env (fault : io_fault) : env :=
  {| web := fun url =>
       if bool_decide (url = example_url)
       then Some [example_row_a1; example_row_short; example_row_a2]
       else None;
     now := fun _ => example_stamp;
     save_fault := fault |}.

Definition example_state : state :=
  {| known_listings := ∅; data_file := Absent; clock := 0; log := [] |}.

(** A monitor that knows [a1], over a data file that holds [a1]. *)
Definition example_saved_state : state :=
  {| known_listings := {[ py "a1" ]};
     data_file := Present (json_dump [py "a1"] example_stamp);
     clock := 7; log := [] |}.

Definition example_listing : listing :=
  {| listing_id := py "a9"; title := py "Cozy House"; price := Fin 0; area := Fin 0;
     description := []; link := py "https://www.ss.lv/msg/lv/a9.html";
     source_url := example_url; scraped_at := example_stamp |}.

(** The reference runtime with a [json.load] that reads the one text the
    scenario saves. *)
Definition example_runtime : PyRuntime := {|
  unicode_decimal := ascii_decimal;
  str_lower := map ascii_lower;
  float_round := fun q => Fin (Qred q);
  json_load := fun text =>
    let ids := elements ({[ py "a1" ]} ∪ {[ py "a2" ]} : gset pystr) in
    if bool_decide (text = json_dump ids example_stamp)
    then Some (state_document ids example_stamp)
    else None;
|}.

(** ** Notification and the run: [send_email_notification], [run_check], [main] *)

(** [a <= b] on numbers. *)
Definition num_le (a b : pynum) : Prop :=
  match a, b with
  | Fin x, Fin y => (x <= y)%Q
  | _, PosInf => True
  | PosInf, Fin _ => False
  end.

(** [str(n)] for a non-negative int. *)
Fixpoint nat_digits (fuel n : nat) (acc : pystr) : pystr :=
  match fuel with
  | O => acc
  | S fuel' =>
    let acc' := (48 + N.of_nat (n mod 10)) :: acc in
    if (n / 10 =? 0)%nat then acc' else nat_digits fuel' (n / 10) acc'
  end.

Definition str_of_nat (n : nat) : pystr := nat_digits (S n) n [].

(** The message handed to [server.send_message]: its headers and the text
    of its single [text/plain] part. *)
Record message := {
  msg_from : pystr;
  msg_to : pystr;
  msg_subject : pystr;
  msg_body : pystr;
}.

(** What sending reads from outside: the addresses ([os.getenv]), whether
    the SMTP session goes through ([smtp_fails]: connecting, [starttls],
    [login] or [send_message] raises), and what [str()] prints for the
    numbers that the body shows: the price and the area of the i-th listing
    of the call and the three bounds of the criteria. *)
Record mail_env := {
  EMAIL_FROM : pystr;
  EMAIL_TO : pystr;
  smtp_fails : bool;
  price_str : nat -> pystr;
  area_str : nat -> pystr;
  min_price_str : pystr;
  max_price_str : pystr;
  min_area_str : pystr;
}.

(** The records handed to [logger] by [send_email_notification],
    [run_check] and [main]. *)
Inductive run_record :=
| Info_email_sent (n : nat)
| Error_sending_email (e : exn)
| Info_starting_check
| Info_found_new_matching (n : nat)
| Info_no_new_matching
| Error_during_check (e : exn)
| Info_check_completed
| Info_monitor_starting
| Info_monitoring_urls (urls : list pystr)
| Info_search_criteria (crit : search_criteria)
| Info_run_mode_single
| Info_running_check
| Info_single_run_completed
| Info_to_run_again.

(** The process: the monitor with its part of the world, the messages
    delivered so far, and the log records of this layer, each with the
    number of records the monitor's methods had logged before it. *)
Record process := {
  monitor : state;
  outbox : list message;
  run_log : list (nat * run_record);
}.

Definition P (A : Type) : Type := process -> (exn + A) * process.

#[export] Instance P_ret : MRet P := fun A a w => (inr a, w).

#[export] Instance P_bind : MBind P := fun A B f c w =>
  match c w with
  | (inr a, w') => f a w'
  | (inl e, w') => (inl e, w')
  end.

Definition p_raise {A} (e : exn) : P A := fun w => (inl e, w).

Definition p_try_except {A} (body : P A) (handler : exn -> P A) : P A := fun w =>
  match body w with
  | (inl e, w') => handler e w'
  | r => r
  end.

(** A method of the monitor, run inside the process. *)
Definition on_monitor {A} (c : M A) : P A := fun w =>
  let '(r, s') := c (monitor w) in
  (r, {| monitor := s'; outbox := outbox w; run_log := run_log w |}).

Definition run_logger (r : run_record) : P unit := fun w =>
  (inr tt, {| monitor := monitor w; outbox := outbox w;
              run_log := run_log w ++ [(length (log (monitor w)), r)] |}).

(** [with smtplib.SMTP(...) as server: starttls, login, send_message]; the
    exceptions of [smtplib] and of the socket are [OSError]s. *)
Definition smtp_send (mail : mail_env) (msg : message) : P unit := fun w =>
  if smtp_fails mail then (inl OSError, w)
  else (inr tt, {| monitor := monitor w; outbox := outbox w ++ [msg];
                   run_log := run_log w |}).

(** One pass of the loop over [enumerate(listings, 1)]: the text added to
    [body] for [l], the i-th listing. *)
Definition body_entry (mail : mail_env) (i : nat) (l : listing) : pystr :=
  [newline]
  ++ str_of_nat i ++ py ". " ++ title l ++ [newline]
  ++ py "   Price: " ++ price_str mail i ++ py "€" ++ [newline]
  ++ py "   Area: " ++ area_str mail i ++ py " m²" ++ [newline]
  ++ py "   Description: " ++ description l ++ [newline]
  ++ py "   Link: " ++ link l ++ [newline]
  ++ py "   " ++ [newline].

Fixpoint body_entries (mail : mail_env) (i : nat) (listings : list listing) : pystr :=
  match listings with
  | [] => []
  | l :: rest => body_entry mail i l ++ body_entries mail (S i) rest
  end.

Definition body_criteria (mail : mail_env) (crit : search_criteria) : pystr :=
  [newline]
  ++ py "Search Criteria:" ++ [newline]
  ++ py "- Price range: " ++ min_price_str mail ++ py "€ - "
  ++ max_price_str mail ++ py "€" ++ [newline]
  ++ py "- Minimum area: " ++ min_area_str mail ++ py " m²" ++ [newline]
  ++ py "- Include keywords: " ++ str_join (py ", ") (keywords_include crit) ++ [newline]
  ++ py "- Exclude keywords: " ++ str_join (py ", ") (keywords_exclude crit) ++ [newline]
  ++ [newline]
  ++ py "Happy house hunting!" ++ [newline]
  ++ [newline]
  ++ py "---" ++ [newline]
  ++ py "This is an automated message from your SS.LV monitoring script." ++ [newline].

Definition email_body (mail : mail_env) (crit : search_criteria)
    (listings : list listing) : pystr :=
  ([newline]
   ++ py "New real estate listings matching your criteria have been found on SS.LV:"
   ++ [newline] ++ [newline])
  ++ body_entries mail 1 listings
  ++ body_criteria mail crit.

Definition email_message (mail : mail_env) (crit : search_criteria)
    (listings : list listing) : message :=
  {| msg_from := EMAIL_FROM mail;
     msg_to := EMAIL_TO mail;
     msg_subject := py "SS.LV Alert: " ++ str_of_nat (length listings)
                    ++ py " New Matching Listing(s) Found";
     msg_body := email_body mail crit listings |}.

Definition send_email_notification (mail : mail_env) (crit : search_criteria)
    (listings : list listing) : P unit :=
  match listings with
  | [] => mret tt
  | _ :: _ =>
    p_try_except
      (smtp_send mail (email_message mail crit listings);;
       run_logger (Info_email_sent (length listings)))
      (fun e => run_logger (Error_sending_email e))
  end.

Definition run_check {rt : PyRuntime} (ev : env) (mail : mail_env)
    (urls : list pystr) (crit : search_criteria) : P unit :=
  run_logger Info_starting_check;;
  p_try_except
    (new_listings ← on_monitor (check_for_new_listings ev urls crit);
     match new_listings with
     | _ :: _ =>
       run_logger (Info_found_new_matching (length new_listings));;
       send_email_notification mail crit new_listings
     | [] => run_logger Info_no_new_matching
     end)
    (fun e => run_logger (Error_during_check e));;
  run_logger Info_check_completed.

(** [main] with [RUN_MODE = "single"] and [RUN_IMMEDIATELY = True], as the
    source sets them; the process starts with a monitor that has loaded
    nothing yet. *)
Definition main {rt : PyRuntime} (ev : env) (mail : mail_env)
    (urls : list pystr) (crit : search_criteria) : P unit :=
  run_logger Info_monitor_starting;;
  run_logger (Info_monitoring_urls urls);;
  run_logger (Info_search_criteria crit);;
  run_logger Info_run_mode_single;;
  on_monitor init;;
  run_logger Info_running_check;;
  run_check ev mail urls crit;;
  run_logger Info_single_run_completed;;
  run_logger Info_to_run_again.

(** ** More of the scenario *)

Definition example_mail (fails : bool) : mail_env :=
  {| EMAIL_FROM := py "your_email@gmail.com";
     EMAIL_TO := py "recipient@gmail.com";
     smtp_fails := fails;
     price_str := fun _ => py "50000.0";
     area_str := fun _ => py "80.0";
     min_price_str := py "10000";
     max_price_str := py "150000";
     min_area_str := py "50" |}.

Definition example_process : process :=
  {| monitor := example_state; outbox := []; run_log := [] |}.

(** ** More notions used to state properties *)

(** The text has a currency marker, as the price loop looks for it. *)
Definition has_currency_marker (text : pystr) : Prop :=
  substring (py "€") text ∨ substring (py "EUR") text.

(** The text has an area marker, as the area loop looks for it. *)
Definition has_area_marker (text : pystr) : Prop :=
  substring (py "m²") text ∨ substring (py "m2") text.

Definition count_periods (s : pystr) : nat :=
  length (List.filter (fun c => c =? period) s).

(** The record [l] was built from a row of the page of one of [urls]. *)
Definition scraped_from {rt : PyRuntime} (ev : env) (urls : list pystr)
    (l : listing) : Prop :=
  ∃ url doc row,
    url ∈ urls ∧ web ev url = Some doc ∧ row ∈ doc ∧ row_produces url row l.

(** A runtime whose [json.load] reads every text as [doc]. *)
Definition constant_runtime (doc : json) : PyRuntime := {|
  unicode_decimal := ascii_decimal;
  str_lower := map ascii_lower;
  float_round := fun q => Fin (Qred q);
  json_load := fun _ => Some doc;
|}.

(** A monitor that knows [a1] and [a2], before any save. *)
Definition example_known_state : state :=
  {| known_listings := {[ py "a1" ]} ∪ {[ py "a2" ]};
     data_file := Absent; clock := 3; log := [] |}.

(** The page a day later: a new listing above [a1]. *)
Definition example_env_later : env :=
  {| web := fun url =>
       if bool_decide (url = example_url)
       then Some [example_row_eur; example_row_a1]
       else None;
     now := fun _ => example_stamp;
     save_fault := OpenFails |}.

Definition example_criteria : search_criteria :=
  {| max_price := Fin 150000; min_price := Fin 100;
     keywords_include := [py "house"]; keywords_exclude := [];
     min_area := Fin 50 |}.

(** [not keywords]: the list is empty. *)
Definition is_empty_list (keywords : list pystr) : bool :=
  match keywords with
  | [] => true
  | _ :: _ => false
  end.

(** The test of the description loop on the text of one cell. *)
Definition is_description_text (title text : pystr) : bool :=
  negb (is_empty text) && negb (bool_decide (text = title))
  && negb (str_in (py "€") text) && negb (str_in (py "m²") text).

(** A row whose location is written in two cells. *)
Definition example_row_twice : tr :=
  {| tr_id := Some (py "tr_a5");
     find_all_td := [link_cell "Zeme" "/msg/lv/a5.html"; text_cell "Olaine";
                     text_cell "Riga"; text_cell "Olaine"; text_cell "9,000 €"] |}.

(** Both monitored pages show the same rows, and [a1] twice on each. *)
Definition example_env_repeating : env :=
  {| web := fun _ => Some [example_row_a1; example_row_a2; example_row_a1];
     now := fun _ => example_stamp;
     save_fault := NoFault |}.

(** Criteria that accept both [a1] and [a2]. *)
Definition example_criteria_wide : search_criteria :=
  {| max_price := Fin 250000; min_price := Fin 10000;
     keywords_include := [py "māja"]; keywords_exclude := [];
     min_area := Fin 50 |}.

(** * Properties *)

(** ** Strings *)

Lemma startswith_spec p s : startswith p s = true ↔ ∃ t, s = p ++ t.
Proof.
  revert s. induction p as [|a p IH]; intros s; simpl.
  - split; [intros _; by exists s | done].
  - destruct s as [|b s]; simpl.
    + split; [done | intros [t Ht]; discriminate].
    + rewrite andb_true_iff, N.eqb_eq, IH. split.
      * intros [-> [t ->]]. by exists t.
      * intros [t Ht]. injection Ht as -> ->. split; [done | by exists t].
Qed.

Lemma str_in_spec needle hay : str_in needle hay = true ↔ substring needle hay.
Proof.
  unfold substring. induction hay as [|c hay IH]; simpl.
  - rewrite orb_false_r, startswith_spec. split.
    + intros [t Ht]. exists [], t. done.
    + intros [before [after H]]. symmetry in H.
      apply app_eq_nil in H as [-> H]. apply app_eq_nil in H as [-> ->].
      by exists [].
  - rewrite orb_true_iff, startswith_spec, IH. split.
    + intros [[t Ht] | [before [after H]]].
      * exists [], t. done.
      * exists (c :: before), after. by rewrite H.
    + intros [[|b before] [after H]].
      * left. by exists after.
      * right. injection H as -> ->. by exists before, after.
Qed.

Lemma substring_refl s : substring s s.
Proof. exists [], []. by rewrite app_nil_r. Qed.

Lemma substring_app_l needle a b : substring needle a → substring needle (a ++ b).
Proof.
  intros (x & y & ->). exists x, (y ++ b). by rewrite <- !app_assoc.
Qed.

Lemma substring_app_r needle a b : substring needle b → substring needle (a ++ b).
Proof.
  intros (x & y & ->). exists (a ++ x), y. by rewrite <- !app_assoc.
Qed.


Lemma str_join_holds sep parts part :
  part ∈ parts → substring part (str_join sep parts).
Proof.
  induction parts as [|p rest IH]; intros Hin; [by apply elem_of_nil in Hin|].
  apply elem_of_cons in Hin as [->|Hin].
  - destruct rest; [apply substring_refl|]. apply substring_app_l, substring_refl.
  - destruct rest as [|q rest]; [by apply elem_of_nil in Hin|].
    change (str_join sep (p :: q :: rest)) with (p ++ sep ++ str_join sep (q :: rest)).
    apply substring_app_r, substring_app_r. by apply IH.
Qed.

Lemma str_replace_char c s :
  str_replace [c] [] s = List.filter (fun x => negb (x =? c)) s.
Proof.
  unfold str_replace. induction s as [|x s IH]; [done|].
  cbn [replace_from startswith List.filter length Nat.sub].
  rewrite andb_true_r, (N.eqb_sym x c).
  destruct (c =? x); cbn [negb app]; by rewrite IH.
Qed.

Lemma span_app f s :
  s = fst (span f s) ++ snd (span f s).
Proof.
  induction s as [|c s IH]; [done|]. simpl.
  destruct (f c); [|done]. destruct (span f s) as [a b]. simpl in *. by f_equal.
Qed.

Lemma span_prefix f s : forallb f (fst (span f s)) = true.
Proof.
  induction s as [|c s IH]; [done|]. simpl.
  destruct (f c) eqn:E; [|done]. destruct (span f s) as [a b]. simpl in *.
  by rewrite E.
Qed.

Lemma span_rest f s :
  match snd (span f s) with
  | [] => True
  | c :: _ => f c = false
  end.
Proof.
  induction s as [|c s IH]; [done|]. simpl.
  destruct (f c) eqn:E; [|done]. by destruct (span f s) as [a b].
Qed.

Lemma span_stop f a c b :
  forallb f a = true → f c = false → span f (a ++ c :: b) = (a, c :: b).
Proof.
  intros Ha Hc. induction a as [|x a IH]; simpl.
  - by rewrite Hc.
  - simpl in Ha. apply andb_true_iff in Ha as [-> Ha]. by rewrite IH.
Qed.

Lemma span_all f a : forallb f a = true → span f a = (a, []).
Proof.
  intros Ha. induction a as [|x a IH]; [done|]. simpl in *.
  apply andb_true_iff in Ha as [-> Ha]. by rewrite IH.
Qed.

(** ** Field normaliser *)
Section NormaliserFacts.
Context {rt : PyRuntime}.

Lemma py_float_raises s e : py_float s = inl e → e = ValueError.
Proof. unfold py_float. destruct (parse_decimal s); [done|]. by intros [= <-]. Qed.

Lemma extract_price_returns text : ∃ v, extract_price text = inr v.
Proof.
  destruct text as [[|c s]|]; try by eexists.
  unfold extract_price. destruct (py_float _) as [e|v] eqn:E; [|by eexists].
  rewrite (py_float_raises _ _ E). by eexists.
Qed.

Lemma extract_area_returns text : ∃ v, extract_area text = inr v.
Proof.
  destruct text as [[|c s]|]; try by eexists.
  unfold extract_area. destruct (re_search_number _); [|by eexists].
  destruct (py_float _) as [e|v] eqn:E; [|by eexists].
  rewrite (py_float_raises _ _ E). by eexists.
Qed.

Lemma parse_decimal_inv s q :
  parse_decimal s = Some q →
  ∃ ip fp, decimal_literal s ip fp ∧ q = decimal_value ip fp.
Proof.
  unfold parse_decimal. pose proof (span_app is_decimal s) as Happ.
  pose proof (span_prefix is_decimal s) as Hpre.
  destruct (span is_decimal s) as [ip rest]. simpl in *.
  destruct rest as [|c fp].
  - destruct ip as [|d ip]; [done|]. intros [= <-]. exists (d :: ip), [].
    rewrite app_nil_r in Happ. subst s. split; [by constructor | done].
  - destruct (c =? period) eqn:Ec; [|done]. apply N.eqb_eq in Ec as ->.
    destruct (forallb is_decimal fp) eqn:Efp; [|done]. simpl.
    destruct (Nat.eqb_spec (length ip + length fp) 0) as [|Hlen]; [done|].
    intros [= <-]. exists ip, fp. subst s. split; [|done]. constructor; [|done..].
    destruct ip; [right|left]; [|done]. destruct fp; [simpl in Hlen; lia | done].
Qed.

(** [float] is called on decimal digits and periods only. *)
Lemma price_clean_chars s :
  Forall (fun c => is_decimal c = true ∨ c = period)
    (str_replace [comma] [] (re_sub_non_price s)).
Proof.
  rewrite str_replace_char. unfold re_sub_non_price.
  apply Forall_forall. intros c Hc%list_elem_of_In.
  apply filter_In in Hc as [Hc Hnc]. apply filter_In in Hc as [_ Hk].
  destruct (is_decimal c); [by left|]. destruct (c =? comma); [done|].
  simpl in Hk. apply N.eqb_eq in Hk. by right.
Qed.

Lemma match_number_chars s :
  Forall (fun c => is_decimal c = true ∨ c = period) (match_number s).
Proof.
  assert (Hd : ∀ l, forallb is_decimal l = true →
                    Forall (fun c => is_decimal c = true ∨ c = period) l).
  { intros l Hl. apply Forall_forall. intros c Hc%list_elem_of_In. left.
    by eapply forallb_forall in Hl. }
  unfold match_number. pose proof (span_prefix is_decimal s) as Hip.
  destruct (span is_decimal s) as [ip rest]. simpl in Hip.
  destruct rest as [|c rest]; [by apply Hd|].
  destruct (c =? period); [|by apply Hd].
  pose proof (span_prefix is_decimal rest) as Hfp.
  destruct (span is_decimal rest) as [[|d fp] rest']; [by apply Hd|].
  apply Forall_app. split; [by apply Hd|]. constructor; [by right|by apply Hd].
Qed.

Lemma re_search_number_chars s group1 :
  re_search_number s = Some group1 →
  Forall (fun c => is_decimal c = true ∨ c = period) group1.
Proof.
  induction s as [|c s IH]; [done|]. cbn [re_search_number].
  destruct (is_decimal c); [|done]. intros [= <-]. apply match_number_chars.
Qed.

(** What is used of the Unicode database and of binary64 rounding: below
    U+0080 the decimal digits are 0-9, the euro sign is no digit, and a
    value that is a binary64 number is not changed by rounding. *)
Hypothesis decimal_ascii : ∀ c, c < 128 → unicode_decimal c = ascii_decimal c.
Hypothesis decimal_euro : unicode_decimal 8364 = None.
Hypothesis round_exact : ∀ q, binary64_exact q = true → float_round q = Fin (Qred q).

Lemma period_not_decimal : is_decimal period = false.
Proof using decimal_ascii. unfold is_decimal. by rewrite decimal_ascii. Qed.

Lemma parse_decimal_literal s ip fp :
  decimal_literal s ip fp → parse_decimal s = Some (decimal_value ip fp).
Proof using decimal_ascii.
  intros H. unfold parse_decimal. destruct H as [ip Hne Hip | ip fp Hne Hip Hfp].
  - rewrite (span_all _ _ Hip). by destruct ip.
  - rewrite (span_stop _ _ _ _ Hip period_not_decimal).
    rewrite N.eqb_refl, Hfp. simpl.
    destruct (Nat.eqb_spec (length ip + length fp) 0) as [E|]; [|done].
    destruct ip, fp; simpl in E; try lia. by destruct Hne.
Qed.

Lemma parse_decimal_not_literal s :
  (∀ ip fp, ¬ decimal_literal s ip fp) → parse_decimal s = None.
Proof.
  intros H. destruct (parse_decimal s) as [q|] eqn:E; [|done].
  apply parse_decimal_inv in E as (ip & fp & Hl & _). by destruct (H ip fp).
Qed.

(** *** Evaluation on text made of ASCII and euro signs *)

Lemma unicode_decimal_plain c :
  plain c = true → unicode_decimal c = @unicode_decimal reference_runtime c.
Proof using decimal_ascii decimal_euro.
  unfold plain. intros [H|H]%orb_true_iff.
  - apply N.ltb_lt in H. by apply decimal_ascii.
  - apply N.eqb_eq in H as ->. by rewrite decimal_euro.
Qed.

Lemma is_decimal_plain c :
  plain c = true → is_decimal c = @is_decimal reference_runtime c.
Proof using decimal_ascii decimal_euro.
  intros H. unfold is_decimal. by rewrite unicode_decimal_plain.
Qed.

Lemma forallb_plain_cons c s :
  forallb plain (c :: s) = true → plain c = true ∧ forallb plain s = true.
Proof. simpl. by intros ?%andb_true_iff. Qed.

Lemma span_plain s :
  forallb plain s = true →
  span is_decimal s = span (@is_decimal reference_runtime) s.
Proof using decimal_ascii decimal_euro.
  induction s as [|c s IH]; [done|]. intros [Hc Hs]%forallb_plain_cons. simpl.
  by rewrite is_decimal_plain, IH.
Qed.

Lemma forallb_is_decimal_plain s :
  forallb plain s = true →
  forallb is_decimal s = forallb (@is_decimal reference_runtime) s.
Proof using decimal_ascii decimal_euro.
  induction s as [|c s IH]; [done|]. intros [Hc Hs]%forallb_plain_cons. simpl.
  by rewrite is_decimal_plain, IH.
Qed.

Lemma digits_value_plain s :
  forallb plain s = true → digits_value s = @digits_value reference_runtime s.
Proof using decimal_ascii decimal_euro.
  unfold digits_value. generalize 0. induction s as [|c s IH]; [done|].
  intros acc [Hc Hs]%forallb_plain_cons. simpl.
  unfold digit_value at 2 4. rewrite unicode_decimal_plain by done. by apply IH.
Qed.

Lemma plain_span s :
  forallb plain s = true →
  forallb plain (fst (span (@is_decimal reference_runtime) s)) = true
  ∧ forallb plain (snd (span (@is_decimal reference_runtime) s)) = true.
Proof.
  induction s as [|c s IH]; [done|]. intros [Hc Hs]%forallb_plain_cons. simpl.
  destruct (@is_decimal reference_runtime c).
  - destruct (span _ s) as [a b]. simpl in *. rewrite Hc. by apply IH.
  - simpl. by rewrite Hc, Hs.
Qed.

Lemma parse_decimal_plain s :
  forallb plain s = true → parse_decimal s = @parse_decimal reference_runtime s.
Proof using decimal_ascii decimal_euro.
  intros Hs. unfold parse_decimal. rewrite span_plain by done.
  destruct (plain_span s Hs) as [Hip Hrest].
  destruct (span _ s) as [ip rest]. simpl in *.
  unfold decimal_value. destruct rest as [|c fp].
  - rewrite app_nil_r. by rewrite digits_value_plain.
  - apply forallb_plain_cons in Hrest as [Hc Hfp].
    rewrite forallb_is_decimal_plain by done.
    rewrite digits_value_plain; [done|]. rewrite forallb_app. by rewrite Hip, Hfp.
Qed.

Lemma re_sub_non_price_plain s :
  forallb plain s = true →
  re_sub_non_price s = @re_sub_non_price reference_runtime s
  ∧ forallb plain (re_sub_non_price s) = true.
Proof using decimal_ascii decimal_euro.
  unfold re_sub_non_price. induction s as [|c s IH]; [done|].
  intros [Hc Hs]%forallb_plain_cons. simpl. rewrite is_decimal_plain by done.
  destruct (IH Hs) as [-> IH2].
  destruct (_ || _); simpl; [rewrite Hc|]; done.
Qed.

Lemma forallb_filter {A} (f g : A → bool) l :
  forallb f l = true → forallb f (List.filter g l) = true.
Proof.
  induction l as [|x l IH]; [done|]. simpl. intros [Hx Hl]%andb_true_iff.
  destruct (g x); simpl; [rewrite Hx|]; auto.
Qed.

(** On plain text, [extract_price] is the exact computation followed by
    the rounding. *)
Lemma extract_price_plain c s :
  forallb plain (c :: s) = true →
  extract_price (Some (c :: s)) =
  match @parse_decimal reference_runtime
          (str_replace [comma] [] (@re_sub_non_price reference_runtime (c :: s))) with
  | Some q => inr (float_round q)
  | None => inr (Fin 0)
  end.
Proof using decimal_ascii decimal_euro.
  intros Hs. unfold extract_price, py_float.
  destruct (re_sub_non_price_plain _ Hs) as [-> Hp].
  rewrite parse_decimal_plain.
  - by destruct (parse_decimal _).
  - rewrite str_replace_char. by apply forallb_filter.
Qed.

Lemma extract_price_cleaned c s :
  extract_price (Some (c :: s)) =
  match parse_decimal (cleaned_price_text (c :: s)) with
  | Some q => inr (float_round q)
  | None => inr (Fin 0)
  end.
Proof.
  unfold extract_price, py_float, cleaned_price_text.
  rewrite str_replace_char. fold (re_sub_non_price (c :: s)).
  by destruct (parse_decimal _).
Qed.

(** C7. [extract_price] never raises and is the strip-and-parse of the
    specification: [None] and the empty string give 0; otherwise every
    character that is not a digit, a comma or a period is dropped, then
    the commas, and the result is the rounded value of what is left when
    that is a decimal number, and 0 when it is not. So "150,000 €" gives
    150000.0, and the empty string and "N/A" give 0. *)
Theorem extract_price_strip_and_parse :
  (∀ text : option pystr, ∃ v,
     extract_price text = inr v
     ∧ match text with
       | None | Some [] => v = Fin 0
       | Some s =>
         (∀ ip fp, decimal_literal (cleaned_price_text s) ip fp →
                   v = float_round (decimal_value ip fp))
         ∧ ((∀ ip fp, ¬ decimal_literal (cleaned_price_text s) ip fp) → v = Fin 0)
       end)
  ∧ extract_price (Some (py "150,000 €")) = inr (Fin 150000)
  ∧ extract_price (Some []) = inr (Fin 0)
  ∧ extract_price (Some (py "N/A")) = inr (Fin 0).
Proof using All.
  split; [|split; [|split]].
  - intros [[|c s]|]; [by eexists| |by eexists].
    rewrite extract_price_cleaned.
    destruct (parse_decimal _) as [q|] eqn:E; eexists; (split; [done|]); split.
    + intros ip fp Hl. apply parse_decimal_literal in Hl. congruence.
    + intros Hn. apply parse_decimal_inv in E as (ip & fp & Hl & _).
      by destruct (Hn ip fp).
    + intros ip fp Hl. apply parse_decimal_literal in Hl. congruence.
    + done.
  - etrans; [by apply extract_price_plain|].
    vm_compute parse_decimal. cbv iota. by rewrite round_exact.
  - done.
  - etrans; [by apply extract_price_plain|]. by vm_compute parse_decimal.
Qed.

(** *** [extract_area] *)

Lemma span_stop_rest f a rest :
  forallb f a = true →
  match rest with [] => True | c :: _ => f c = false end →
  span f (a ++ rest) = (a, rest).
Proof.
  intros Ha Hr. destruct rest as [|c rest].
  - rewrite app_nil_r. by apply span_all.
  - by apply span_stop.
Qed.

Lemma starts_with_digit_stop rest :
  starts_with_digit rest = false →
  match rest with [] => True | c :: _ => is_decimal c = false end.
Proof. by destruct rest. Qed.

Lemma re_search_number_skip before s :
  forallb not_decimal before = true →
  re_search_number (before ++ s) = re_search_number s.
Proof.
  induction before as [|c before IH]; [done|]. simpl.
  intros [Hc Hb]%andb_true_iff. unfold not_decimal in Hc.
  destruct (is_decimal c); [done|]. by apply IH.
Qed.

Lemma re_search_number_none s :
  forallb not_decimal s = true → re_search_number s = None.
Proof.
  intros H. rewrite <- (app_nil_r s). by rewrite re_search_number_skip.
Qed.

Lemma re_search_number_at ip rest :
  ip ≠ [] → forallb is_decimal ip = true →
  re_search_number (ip ++ rest) = Some (match_number (ip ++ rest)).
Proof.
  destruct ip as [|d ip]; [done|]. intros _ [Hd _]%andb_true_iff.
  simpl. by rewrite Hd.
Qed.

Lemma first_number_group1 text ip fp :
  first_number text ip fp →
  ∃ group1, re_search_number text = Some group1 ∧ decimal_literal group1 ip fp.
Proof using decimal_ascii.
  intros [before ip' rest -> Hb Hne Hip Hrest Hper
         | before ip' fp' rest -> Hb Hne Hip Hfne Hfp Hrest].
  - rewrite re_search_number_skip, re_search_number_at by done.
    exists ip'. split; [|by constructor]. f_equal. unfold match_number.
    rewrite span_stop_rest; [|done|by apply starts_with_digit_stop].
    destruct rest as [|c rest']; [done|].
    destruct (N.eqb_spec c period) as [->|]; [|done].
    specialize (Hper rest' eq_refl).
    pose proof (span_prefix is_decimal rest') as Hpre.
    destruct (span is_decimal rest') as [[|d a] b] eqn:E; [done|].
    destruct rest' as [|c' r]; [done|]. simpl in Hper, E.
    by rewrite Hper in E.
  - rewrite re_search_number_skip, re_search_number_at by done.
    exists (ip' ++ period :: fp'). split; [|constructor; auto].
    f_equal. unfold match_number.
    rewrite (span_stop _ _ _ _ Hip period_not_decimal).
    rewrite N.eqb_refl.
    rewrite span_stop_rest; [|done|by apply starts_with_digit_stop].
    by destruct fp'.
Qed.

Lemma area_of_first_number c s ip fp :
  first_number (c :: s) ip fp →
  extract_area (Some (c :: s)) = inr (float_round (decimal_value ip fp)).
Proof using decimal_ascii.
  intros (group1 & Hs & Hl)%first_number_group1.
  unfold extract_area, py_float. rewrite Hs.
  by rewrite (parse_decimal_literal _ _ _ Hl).
Qed.

Lemma forallb_not_decimal_plain s :
  forallb plain s = true →
  forallb not_decimal s = forallb (@not_decimal reference_runtime) s.
Proof using decimal_ascii decimal_euro.
  induction s as [|c s IH]; [done|]. intros [Hc Hs]%forallb_plain_cons. simpl.
  unfold not_decimal at 1 3. by rewrite is_decimal_plain, IH.
Qed.

Lemma decimal_value_plain ip fp :
  forallb plain (ip ++ fp) = true →
  decimal_value ip fp = @decimal_value reference_runtime ip fp.
Proof using decimal_ascii decimal_euro.
  intros H. unfold decimal_value. by rewrite digits_value_plain.
Qed.

(** C8. [extract_area] never raises and returns the first number of the
    text: [None] and the empty string give 0, a text without a digit gives
    0, and otherwise the result is the rounded value of the leftmost
    number, an integer or a decimal. So "75.5 m²" gives 75.5 and
    "large plot" gives 0. *)
Theorem extract_area_first_number :
  (∀ text : option pystr, ∃ v,
     extract_area text = inr v
     ∧ match text with
       | None | Some [] => v = Fin 0
       | Some s =>
         (∀ ip fp, first_number s ip fp → v = float_round (decimal_value ip fp))
         ∧ (forallb not_decimal s = true → v = Fin 0)
       end)
  ∧ extract_area (Some (py "75.5 m²")) = inr (Fin (151 # 2))
  ∧ extract_area (Some (py "large plot")) = inr (Fin 0).
Proof using All.
  split; [|split].
  - intros [[|c s]|]; [by eexists| |by eexists].
    destruct (extract_area_returns (Some (c :: s))) as [v Hv].
    exists v. split; [done|]. split.
    + intros ip fp Hf. apply area_of_first_number in Hf. congruence.
    + intros Hn. unfold extract_area in Hv.
      rewrite re_search_number_none in Hv by done. congruence.
  - etrans.
    { apply (area_of_first_number _ _ (py "75") (py "5")).
      apply (first_decimal _ [] (py "75") (py "5") (py " m²")); try done.
      - by rewrite forallb_is_decimal_plain.
      - by rewrite forallb_is_decimal_plain.
      - simpl. by rewrite is_decimal_plain. }
    rewrite decimal_value_plain by done. by rewrite round_exact.
  - unfold extract_area.
    replace (py "large plot") with [108; 97; 114; 103; 101; 32; 112; 108; 111; 116]
      by reflexivity.
    rewrite re_search_number_none; [done|]. by rewrite forallb_not_decimal_plain.
Qed.
End NormaliserFacts.

(** ** The monad *)
Section Returns.
Context {A B : Type}.

Lemma returns_ret (a : A) s (Q : A → state → Prop) : Q a s → returns (mret a) s Q.
Proof. intros H. by exists a, s. Qed.

Lemma returns_bind (c : M A) (f : A → M B) s (Q : B → state → Prop) :
  returns c s (fun a s' => returns (f a) s' Q) → returns (c ≫= f) s Q.
Proof.
  intros (a & s' & Hc & b & s'' & Hf & HQ). exists b, s''. split; [|done].
  unfold mbind, M_bind. by rewrite Hc.
Qed.

Lemma returns_try (c : M A) h s (Q : A → state → Prop) :
  returns c s Q → returns (try_except c h) s Q.
Proof.
  intros (a & s' & Hc & HQ). exists a, s'. split; [|done].
  unfold try_except. by rewrite Hc.
Qed.

Lemma returns_mono (c : M A) s (P Q : A → state → Prop) :
  returns c s P → (∀ a s', P a s' → Q a s') → returns c s Q.
Proof. intros (a & s' & Hc & HP) H. exists a, s'. auto. Qed.

Lemma returns_lift (a : A) s (Q : A → state → Prop) : Q a s → returns (lift (inr a)) s Q.
Proof. intros H. by exists a, s. Qed.

Lemma returns_run (c : M A) s (Q : A → state → Prop) a s' :
  returns c s Q → c s = (inr a, s') → Q a s'.
Proof. intros (a' & s'' & Hc & HQ) E. rewrite Hc in E. by injection E as -> ->. Qed.
End Returns.

Lemma returns_logger r (s : state) (Q : unit → state → Prop) :
  Q tt {| known_listings := known_listings s; data_file := data_file s;
          clock := clock s; log := log s ++ [r] |} →
  returns (logger r) s Q.
Proof. intros H. by eexists _, _. Qed.

Lemma returns_datetime_now ev (s : state) (Q : pystr → state → Prop) :
  Q (now ev (clock s))
    {| known_listings := known_listings s; data_file := data_file s;
       clock := S (clock s); log := log s |} →
  returns (datetime_now ev) s Q.
Proof. intros H. by eexists _, _. Qed.

Lemma returns_get_known (s : state) (Q : gset pystr → state → Prop) :
  Q (known_listings s) s → returns get_known s Q.
Proof. intros H. by eexists _, _. Qed.

Lemma returns_set_known k (s : state) (Q : unit → state → Prop) :
  Q tt {| known_listings := k; data_file := data_file s;
          clock := clock s; log := log s |} →
  returns (set_known k) s Q.
Proof. intros H. by eexists _, _. Qed.

(** ** Criteria matcher *)
Section MatcherFacts.
Context {rt : PyRuntime}.

Lemma meets_criteria_run crit l s :
  meets_criteria crit l s = (inr (criteria_check crit l), s).
Proof. done. Qed.

Lemma num_gt_zero a : num_is_zero a → num_gt a (Fin 0) = false.
Proof.
  destruct a as [q|]; [|done]. simpl. intros Hq.
  unfold Qlt_bool. apply negb_false_iff, Qle_bool_iff. by rewrite Hq.
Qed.

(** C2. A record whose price is 0 is never rejected by the price bounds:
    the verdict is the same under any [min_price] and [max_price]. A
    record whose area is 0 is never rejected by the area bound: the
    verdict is the same under any [min_area]. *)
Theorem zero_price_and_area_are_not_filtered crit l s :
  (num_is_zero (price l) →
   ∀ lo hi,
     meets_criteria
       {| max_price := hi; min_price := lo;
          keywords_include := keywords_include crit;
          keywords_exclude := keywords_exclude crit;
          min_area := min_area crit |} l s
     = meets_criteria crit l s)
  ∧ (num_is_zero (area l) →
     ∀ lo,
       meets_criteria
         {| max_price := max_price crit; min_price := min_price crit;
            keywords_include := keywords_include crit;
            keywords_exclude := keywords_exclude crit;
            min_area := lo |} l s
       = meets_criteria crit l s).
Proof.
  split; intros Hz%num_gt_zero *; rewrite !meets_criteria_run; f_equal; f_equal;
    unfold criteria_check; by rewrite !Hz.
Qed.

Hypothesis lower_ascii :
  ∀ s, forallb is_ascii s = true → str_lower s = map ascii_lower s.

(** C3. The matcher looks for keywords in the lower-cased
    [title + " " + description]: with a non-empty include list none of
    whose lower-cased members occurs there, the record is rejected; with
    an exclude list one of whose lower-cased members occurs there, the
    record is rejected. With the include list ["house"], "Cozy House"
    with an empty description matches when no exclude keyword occurs and
    the bounds do not reject; with description "slightly damaged" and the
    exclude list ["damaged"] it does not match. *)
Theorem keyword_matching crit l s :
  let haystack := str_lower (title l ++ py " " ++ description l) in
  (keywords_include crit ≠ [] →
   (∀ keyword, keyword ∈ keywords_include crit → ¬ substring (str_lower keyword) haystack) →
   meets_criteria crit l s = (inr false, s))
  ∧ (∀ keyword, keyword ∈ keywords_exclude crit →
     substring (str_lower keyword) haystack →
     meets_criteria crit l s = (inr false, s))
  ∧ (keywords_include crit = [py "house"] →
     (∀ keyword, keyword ∈ keywords_exclude crit →
                 ¬ substring (str_lower keyword) haystack) →
     title l = py "Cozy House" → description l = [] →
     (num_gt (price l) (Fin 0) = true →
      num_lt (price l) (min_price crit) = false
      ∧ num_gt (price l) (max_price crit) = false) →
     (num_gt (area l) (Fin 0) = true → num_lt (area l) (min_area crit) = false) →
     meets_criteria crit l s = (inr true, s))
  ∧ (keywords_exclude crit = [py "damaged"] →
     title l = py "Cozy House" → description l = py "slightly damaged" →
     meets_criteria crit l s = (inr false, s)).
Proof using lower_ascii.
  intros haystack. rewrite meets_criteria_run. unfold criteria_check.
  change (title l ++ [32] ++ description l) with (title l ++ py " " ++ description l).
  fold haystack.
  assert (Hany : ∀ kws, any_keyword_in kws haystack = true
                        ↔ ∃ k, k ∈ kws ∧ substring (str_lower k) haystack).
  { intros kws. unfold any_keyword_in. rewrite existsb_exists. split.
    - intros (k & Hk & Hin). exists k. by rewrite list_elem_of_In, <- str_in_spec.
    - intros (k & Hk & Hin). exists k. by rewrite <- list_elem_of_In, str_in_spec. }
  split; [|split; [|split]].
  - intros Hne Hnone.
    assert (any_keyword_in (keywords_include crit) haystack = false) as ->.
    { apply not_true_is_false. rewrite Hany. intros (k & Hk & Hin). by eapply Hnone. }
    destruct (keywords_include crit); [done|]. simpl.
    by repeat (destruct (_ && _); [done|]).
  - intros k Hk Hin.
    assert (any_keyword_in (keywords_exclude crit) haystack = true) as ->.
    { apply Hany. by exists k. }
    destruct (keywords_exclude crit); [by apply elem_of_nil in Hk|]. simpl.
    repeat (destruct (_ && _); [done|]). done.
  - intros Hi He Ht Hd Hp Ha.
    assert (any_keyword_in (keywords_exclude crit) haystack = false) as ->.
    { apply not_true_is_false. rewrite Hany. intros (k & Hk & Hin). by eapply He. }
    rewrite andb_false_r. subst haystack. rewrite Hi, Ht, Hd.
    unfold any_keyword_in. cbn [existsb].
    rewrite !lower_ascii by done.
    destruct (num_gt (price l) (Fin 0)).
    + destruct Hp as [-> ->]; [done|].
      destruct (num_gt (area l) (Fin 0)); [by rewrite Ha|done].
    + destruct (num_gt (area l) (Fin 0)); [by rewrite Ha|done].
  - intros He Ht Hd.
    assert (any_keyword_in (keywords_exclude crit) haystack = true) as ->.
    { subst haystack. rewrite He, Ht, Hd. unfold any_keyword_in. cbn [existsb].
      by rewrite !lower_ascii. }
    rewrite He. simpl. by repeat (destruct (_ && _); [done|]).
Qed.
End MatcherFacts.

(** ** Record extractor *)
Section ExtractorFacts.
Context {rt : PyRuntime}.

Lemma find_price_returns cells : ∃ v, find_price cells = inr v.
Proof.
  induction cells as [|cell rest IH]; [by eexists|]. cbn [find_price].
  destruct (_ || _); [apply extract_price_returns | done].
Qed.

Lemma find_area_returns cells : ∃ v, find_area cells = inr v.
Proof.
  induction cells as [|cell rest IH]; [by eexists|]. cbn [find_area].
  destruct (_ || _); [apply extract_area_returns | done].
Qed.

Lemma same_store_refl s : same_store s s.
Proof. done. Qed.

Lemma same_store_trans s1 s2 s3 : same_store s1 s2 → same_store s2 s3 → same_store s1 s3.
Proof. unfold same_store. intros [] []. split; congruence. Qed.

Lemma scrape_row_skips ev url row s :
  row_listed row = false → scrape_row ev url row s = (inr None, s).
Proof.
  unfold row_listed, scrape_row, try_except. fold (row_listing_id row).
  destruct (is_empty (row_listing_id row)); [done|].
  destruct (length (find_all_td row) <? 4)%nat; [done|].
  destruct (find_title_cell (find_all_td row)) as [[]|]; [|done].
  cbn [negb andb]. intros H%bool_decide_eq_false. destruct H. by eexists.
Qed.

Lemma scrape_row_returns ev url row s :
  returns (scrape_row ev url row) s (fun r s' =>
    same_store s s'
    ∧ match r with
      | Some l => row_produces url row l
      | None => row_listed row = false
      end).
Proof.
  destruct (row_listed row) eqn:Hrow.
  - unfold row_listed in Hrow.
    apply andb_true_iff in Hrow as [[Hid Hlen]%andb_true_iff Ht].
    apply bool_decide_eq_true in Ht as [[title_cell lnk] Ht].
    apply returns_try. unfold scrape_row. fold (row_listing_id row).
    apply negb_true_iff in Hid, Hlen. rewrite Hid, Hlen, Ht.
    destruct (find_price_returns (find_all_td row)) as [p Hp].
    destruct (find_area_returns (find_all_td row)) as [a Ha].
    rewrite Hp, Ha.
    apply returns_bind, returns_lift, returns_bind, returns_lift.
    apply returns_bind, returns_datetime_now, returns_ret.
    split; [done|]. unfold row_produces, row_listed. simpl.
    rewrite Hid, Hlen, Ht. cbn [negb andb].
    split; [apply bool_decide_eq_true; by eexists|]. repeat split; eauto.
  - exists None, s. split; [by apply scrape_row_skips | done].
Qed.

Lemma scrape_rows_returns ev url rows acc s :
  returns (scrape_rows ev url rows acc) s (fun ls s' =>
    same_store s s'
    ∧ ∃ new, ls = acc ++ new
             ∧ Forall2 (row_produces url) (List.filter row_listed rows) new).
Proof.
  revert acc s. induction rows as [|row rows IH]; intros acc s; simpl.
  - apply returns_ret. split; [done|]. exists []. by rewrite app_nil_r.
  - apply returns_bind.
    eapply returns_mono; [apply scrape_row_returns|].
    intros r s1 [Hs1 Hr]. simpl.
    eapply returns_mono; [apply IH|].
    intros ls s2 [Hs2 (new & -> & Hnew)]. simpl.
    split; [by eapply same_store_trans|].
    destruct r as [l|].
    + destruct Hr as [Hlisted Hr]. rewrite Hlisted.
      exists (l :: new). rewrite <- app_assoc. split; [done|].
      constructor; [|done]. by split.
    + rewrite Hr. by exists new.
Qed.

Lemma same_store_log s r :
  same_store s {| known_listings := known_listings s; data_file := data_file s;
                  clock := clock s; log := log s ++ [r] |}.
Proof. done. Qed.

Lemma scrape_listings_returns ev url s :
  returns (scrape_listings ev url) s (fun ls s' =>
    same_store s s'
    ∧ match web ev url with
      | Some doc =>
        Forall2 (row_produces url) (List.filter row_listed (find_listing_rows doc)) ls
      | None => ls = []
      end).
Proof.
  unfold scrape_listings. apply returns_bind.
  unfold fetch. destruct (web ev url) as [doc|].
  - apply returns_try, returns_bind, returns_logger, returns_bind, returns_ret.
    eapply returns_mono; [apply scrape_rows_returns|].
    intros ls s1 [Hs1 (new & -> & Hnew)]. simpl in *.
    apply returns_bind, returns_logger, returns_ret. split; [|done].
    eapply same_store_trans; [|apply same_store_log].
    eapply same_store_trans; [apply (same_store_log s)|done].
  - eexists [], _. split; [reflexivity|]. simpl.
    apply returns_bind, returns_logger, returns_ret. done.
Qed.

Lemma Forall2_row_produces_ids url rows ls :
  Forall2 (row_produces url) rows ls → map listing_id ls = map row_listing_id rows.
Proof.
  induction 1 as [|row l rows ls (_ & Hid & _) _ IH]; [done|]. simpl. by f_equal.
Qed.

Lemma scrape_listings_ids ev url s ls s' :
  scrape_listings ev url s = (inr ls, s') → map listing_id ls = scraped_ids ev url.
Proof.
  intros E. destruct (returns_run _ _ _ _ _ (scrape_listings_returns ev url s) E)
    as [_ H].
  unfold scraped_ids. destruct (web ev url).
  - by eapply Forall2_row_produces_ids.
  - by subst.
Qed.

(** C10. A row with fewer than four cells produces no record, whatever
    its id and its cells are; every record that [scrape_listings] returns
    was built from a row of the page that has at least four cells. *)
Theorem rows_with_fewer_than_four_cells_are_dropped ev url s :
  (∀ row, (length (find_all_td row) < 4)%nat →
          scrape_row ev url row s = (inr None, s))
  ∧ (∀ ls s' l,
       scrape_listings ev url s = (inr ls, s') → l ∈ ls →
       ∃ doc row,
         web ev url = Some doc ∧ row ∈ doc
         ∧ (4 ≤ length (find_all_td row))%nat
         ∧ row_produces url row l).
Proof.
  split.
  - intros row Hlen. apply scrape_row_skips. unfold row_listed.
    apply Nat.ltb_lt in Hlen. rewrite Hlen. by rewrite andb_false_r.
  - intros ls s' l E Hl.
    destruct (returns_run _ _ _ _ _ (scrape_listings_returns ev url s) E) as [_ H].
    destruct (web ev url) as [doc|]; [|subst; by apply elem_of_nil in Hl].
    exists doc. apply list_elem_of_lookup in Hl as [i Hi].
    destruct (Forall2_lookup_r _ _ _ _ _ H Hi) as (row & Hrow & Hp).
    exists row. apply list_elem_of_lookup_2 in Hrow.
    apply list_elem_of_In, filter_In in Hrow as [Hrow Hlisted].
    apply filter_In in Hrow as [Hrow _]. apply list_elem_of_In in Hrow.
    split; [done|]. split; [done|]. split; [|done].
    unfold row_listed in Hlisted.
    apply andb_true_iff in Hlisted as [[_ Hlen%negb_true_iff]%andb_true_iff _].
    apply Nat.ltb_ge in Hlen. done.
Qed.

(** What the description loop keeps: the cells whose text is non-empty,
    differs from the title, and contains neither the euro sign nor [m²];
    [EUR] and [m2] are not looked for. *)
Lemma description_parts_spec title cells :
  description_parts title cells =
  List.filter
    (fun text => negb (is_empty text) && negb (bool_decide (text = title))
                 && negb (str_in (py "€") text) && negb (str_in (py "m²") text))
    (map get_text cells).
Proof.
  induction cells as [|cell rest IH]; [done|]. simpl. rewrite IH.
  by destruct (_ && _).
Qed.
End ExtractorFacts.

(** ** Seen-state store *)

Lemma save_known_listings_run ev (s : state) :
  let text := json_dump (elements (known_listings s)) (now ev (clock s)) in
  save_known_listings ev s =
  (inr tt,
   match save_fault ev with
   | NoFault =>
     {| known_listings := known_listings s; data_file := Present text;
        clock := S (clock s); log := log s |}
   | OpenFails =>
     {| known_listings := known_listings s; data_file := data_file s;
        clock := S (clock s); log := log s ++ [Error_saving_known_listings OSError] |}
   | WriteFails n =>
     {| known_listings := known_listings s; data_file := Present (take n text);
        clock := S (clock s); log := log s ++ [Error_saving_known_listings OSError] |}
   end).
Proof.
  unfold save_known_listings, write_data_file, try_except, mbind, M_bind. simpl.
  by destruct (save_fault ev).
Qed.

(** C5, as the code has it. A save never raises and never changes the
    monitor's set. When the write fails, the failure is logged; the data
    file keeps its prior content only when [open] itself failed, and
    otherwise holds the part of the new text that was written before the
    failure, which may be nothing. *)
Theorem failed_save_is_logged_and_may_truncate ev (s : state) :
  save_fault ev ≠ NoFault →
  ∃ s', save_known_listings ev s = (inr tt, s')
    ∧ known_listings s' = known_listings s
    ∧ log s' = log s ++ [Error_saving_known_listings OSError]
    ∧ match save_fault ev with
      | OpenFails => data_file s' = data_file s
      | WriteFails n =>
        data_file s' =
        Present (take n (json_dump (elements (known_listings s)) (now ev (clock s))))
      | NoFault => False
      end.
Proof.
  intros Hf. rewrite save_known_listings_run. eexists. split; [done|].
  by destruct (save_fault ev).
Qed.

Section StoreFacts.
Context {rt : PyRuntime}.

(** C9. [load_known_listings] never raises. Without a data file it
    returns the empty set; when the file cannot be read, when its text is
    not JSON, when the document is not a dict, or when the value under
    [known_listings] cannot be made a set, it logs the error and returns
    the empty set. It changes neither the file nor the monitor's set. *)
Theorem load_known_listings_never_fails (s : state) :
  ∃ k s',
    load_known_listings s = (inr k, s')
    ∧ same_store s s'
    ∧ (data_file s = Absent → k = ∅ ∧ s' = s)
    ∧ (data_file s = Unreadable → k = ∅)
    ∧ (∀ text, data_file s = Present text →
         match json_load text with
         | None => k = ∅
         | Some data =>
           match dict_get data (py "known_listings") (JList []) with
           | inl _ => k = ∅
           | inr v =>
             match py_set v with
             | inl _ => k = ∅
             | inr ids => k = ids ∧ s' = s
             end
           end
         end).
Proof.
  unfold load_known_listings, try_except, mbind, M_bind, get_data_file, lift. simpl.
  destruct s as [known file clk lg]. simpl.
  destruct file as [| |text]; simpl.
  - eexists _, _. split; [done|]. repeat split; done.
  - eexists _, _. split; [done|]. repeat split; done.
  - destruct (json_load text) as [data|] eqn:Ej; simpl.
    + destruct (dict_get data _ _) as [e|v] eqn:Eg; simpl.
      * eexists _, _. split; [done|]. repeat split; try done.
        intros ? [= <-]. by rewrite Ej, Eg.
      * destruct (py_set v) as [e|ids] eqn:Es; simpl.
        -- eexists _, _. split; [done|]. repeat split; try done.
           intros ? [= <-]. by rewrite Ej, Eg, Es.
        -- eexists _, _. split; [done|]. repeat split; try done.
           intros ? [= <-]. by rewrite Ej, Eg, Es.
    + eexists _, _. split; [done|]. repeat split; try done.
      intros ? [= <-]. by rewrite Ej.
Qed.
End StoreFacts.

(** The dump of a list of ids holds each of them, as a JSON string. *)
Lemma json_dump_holds_id ids stamp id :
  id ∈ ids → substring (json_string id) (json_dump ids stamp).
Proof.
  intros Hin. unfold json_dump.
  do 5 apply substring_app_r. apply substring_app_l.
  unfold json_string_list. destruct ids as [|id0 ids]; [by apply elem_of_nil in Hin|].
  do 3 apply substring_app_r. apply substring_app_l.
  apply str_join_holds. by apply list_elem_of_fmap_2.
Qed.

(** ** Run orchestrator *)
Section OrchestratorFacts.
Context {rt : PyRuntime}.

Lemma classify_returns crit ls acc s :
  returns (classify crit ls acc) s (fun r s' =>
    data_file s' = data_file s
    ∧ known_listings s' = known_listings s ∪ list_to_set (map listing_id ls)
    ∧ ∃ new, r = acc ++ new
             ∧ Forall (fun l => (listing_id l ∉ known_listings s) ∧ (l ∈ ls)) new).
Proof.
  revert acc s. induction ls as [|l ls IH]; intros acc s.
  - apply returns_ret. split; [done|]. split; [set_solver|].
    exists []. by rewrite app_nil_r.
  - cbn [classify]. apply returns_bind, returns_get_known.
    destruct (decide (listing_id l ∉ known_listings s)) as [Hnew|Hold].
    + rewrite bool_decide_eq_true_2 by done.
      apply returns_bind, returns_set_known, returns_bind.
      eexists _, _. split; [apply meets_criteria_run|].
      destruct (criteria_check crit l).
      * apply returns_bind, returns_logger.
        eapply returns_mono; [apply IH|]. simpl.
        intros r s' (Hd & Hk & new & -> & Hnews).
        split; [done|]. split; [set_solver|].
        exists (l :: new). rewrite <- app_assoc. split; [done|].
        constructor; [split; [done|set_solver]|].
        eapply Forall_impl; [exact Hnews|]. simpl. set_solver.
      * eapply returns_mono; [apply IH|]. simpl.
        intros r s' (Hd & Hk & new & -> & Hnews).
        split; [done|]. split; [set_solver|].
        exists new. split; [done|].
        eapply Forall_impl; [exact Hnews|]. simpl. set_solver.
    + rewrite bool_decide_eq_false_2 by done.
      eapply returns_mono; [apply IH|]. simpl.
      intros r s' (Hd & Hk & new & -> & Hnews).
      split; [done|]. split; [apply dec_stable in Hold; set_solver|].
      exists new. split; [done|].
      eapply Forall_impl; [exact Hnews|]. simpl. set_solver.
Qed.

(** The body of the [try] in the loop over the URLs always returns. *)
Lemma check_url_body_returns ev crit url acc s :
  returns (listings ← scrape_listings ev url; classify crit listings acc) s
    (fun r s' =>
       data_file s' = data_file s
       ∧ known_listings s' = known_listings s ∪ list_to_set (scraped_ids ev url)
       ∧ ∃ new, r = acc ++ new
                ∧ Forall (fun l => (listing_id l ∉ known_listings s)
                                   ∧ (listing_id l ∈ scraped_ids ev url)) new).
Proof.
  apply returns_bind.
  destruct (scrape_listings_returns ev url s) as (ls & s1 & E & [Hk Hd] & _).
  exists ls, s1. split; [done|].
  eapply returns_mono; [apply classify_returns|]. simpl.
  intros r s' (Hd' & Hk' & new & -> & Hnew).
  rewrite (scrape_listings_ids _ _ _ _ _ E) in Hk'.
  split; [congruence|]. split; [congruence|].
  exists new. split; [done|].
  eapply Forall_impl; [exact Hnew|]. simpl. intros l [H Hl]. split; [congruence|].
  rewrite <- (scrape_listings_ids _ _ _ _ _ E). by apply list_elem_of_fmap_2.
Qed.

Lemma check_urls_returns ev crit urls acc s :
  returns (check_urls ev crit urls acc) s (fun r s' =>
    data_file s' = data_file s
    ∧ known_listings s' =
      known_listings s ∪ list_to_set (concat (map (scraped_ids ev) urls))
    ∧ ∃ new, r = acc ++ new
             ∧ Forall (fun l => (listing_id l ∉ known_listings s)
                                ∧ (listing_id l ∈ concat (map (scraped_ids ev) urls)))
                 new).
Proof.
  revert acc s. induction urls as [|url urls IH]; intros acc s.
  - apply returns_ret. split; [done|]. split; [set_solver|].
    exists []. by rewrite app_nil_r.
  - cbn [check_urls]. apply returns_bind, returns_try.
    eapply returns_mono; [apply check_url_body_returns|]. simpl.
    intros r1 s1 (Hd1 & Hk1 & new1 & -> & Hnew1).
    eapply returns_mono; [apply IH|]. simpl.
    intros r2 s2 (Hd2 & Hk2 & new2 & -> & Hnew2).
    split; [congruence|]. split.
    { rewrite Hk2, Hk1, list_to_set_app_L. set_solver. }
    exists (new1 ++ new2). rewrite <- app_assoc. split; [done|].
    cbn [map concat]. apply Forall_app. split.
    + eapply Forall_impl; [exact Hnew1|]. simpl. intros l [H1 H2].
      split; [done|]. apply elem_of_app. by left.
    + eapply Forall_impl; [exact Hnew2|]. simpl. intros l [H1 H2].
      split; [rewrite Hk1 in H1; set_solver|]. apply elem_of_app. by right.
Qed.

Lemma check_for_new_listings_run ev urls crit s :
  ∃ matches s1,
    check_urls ev crit urls [] s = (inr matches, s1)
    ∧ check_for_new_listings ev urls crit s =
      (inr matches, snd (save_known_listings ev s1))
    ∧ data_file s1 = data_file s
    ∧ known_listings s1 =
      known_listings s ∪ list_to_set (concat (map (scraped_ids ev) urls))
    ∧ Forall (fun l => (listing_id l ∉ known_listings s)
                       ∧ (listing_id l ∈ concat (map (scraped_ids ev) urls))) matches.
Proof.
  destruct (check_urls_returns ev crit urls [] s)
    as (matches & s1 & E & Hd & Hk & new & -> & Hnew).
  exists ([] ++ new), s1. split; [done|]. split; [|done].
  unfold check_for_new_listings, mbind, M_bind. rewrite E.
  by rewrite save_known_listings_run.
Qed.

(** C1. When the save succeeds, the run returns, the data file is
    written only by the final save, and it then holds the dump of the
    monitor's set, in which the id of every record that scraping any of
    the URLs yields is present, whatever the criteria say about the
    record: the id is in the set, and the text of the file contains the
    id as a JSON string. *)
Theorem every_extracted_id_is_persisted ev urls crit (s : state) :
  save_fault ev = NoFault →
  ∃ matches s',
    check_for_new_listings ev urls crit s = (inr matches, s')
    ∧ data_file (snd (check_urls ev crit urls [] s)) = data_file s
    ∧ (∃ stamp,
         data_file s' = Present (json_dump (elements (known_listings s')) stamp))
    ∧ ∀ url s0 ls s1 l,
        url ∈ urls → scrape_listings ev url s0 = (inr ls, s1) → l ∈ ls →
        listing_id l ∈ elements (known_listings s')
        ∧ ∃ text, data_file s' = Present text
                  ∧ substring (json_string (listing_id l)) text.
Proof.
  intros Hf.
  destruct (check_for_new_listings_run ev urls crit s)
    as (matches & s1 & E1 & E & Hd & Hk & _).
  rewrite save_known_listings_run, Hf in E. simpl in E.
  eexists _, _. split; [exact E|]. simpl. split; [by rewrite E1|].
  split; [by eexists|].
  intros url s0 ls s2 l Hurl Els Hl.
  assert (Hin : listing_id l ∈ elements (known_listings s1)).
  { rewrite elem_of_elements, Hk.
    apply elem_of_union_r, elem_of_list_to_set, list_elem_of_In, in_concat.
    exists (scraped_ids ev url). split.
    - apply in_map, list_elem_of_In, Hurl.
    - rewrite <- (scrape_listings_ids _ _ _ _ _ Els).
      apply in_map, list_elem_of_In, Hl. }
  split; [exact Hin|].
  eexists. split; [reflexivity|]. by apply json_dump_holds_id.
Qed.

Lemma save_known_listings_known ev (s : state) :
  known_listings (snd (save_known_listings ev s)) = known_listings s.
Proof. rewrite save_known_listings_run. simpl. by destruct (save_fault ev). Qed.

(** A run over pages whose ids are all known returns nothing and leaves
    the set as it is. *)
Lemma check_known_returns_nothing ev urls crit (s : state) :
  (∀ id, id ∈ concat (map (scraped_ids ev) urls) → id ∈ known_listings s) →
  ∃ s', check_for_new_listings ev urls crit s = (inr [], s')
        ∧ known_listings s' = known_listings s.
Proof.
  intros Hknown.
  destruct (check_for_new_listings_run ev urls crit s)
    as (matches & s1 & _ & E & _ & Hk & Hnew).
  eexists. split.
  - rewrite E. f_equal. f_equal.
    destruct matches as [|l matches]; [done|]. exfalso.
    apply Forall_cons in Hnew as [[Hl Hin] _]. by apply Hl, Hknown.
  - rewrite save_known_listings_known, Hk. set_solver.
Qed.

Lemma set_of_items_strings ids : set_of_items (map JStr ids) = inr (list_to_set ids).
Proof. induction ids as [|x ids IH]; [done|]. simpl. by rewrite IH. Qed.

(** Loading a file that [json.load] reads as the dump of [ids]. *)
Lemma load_known_listings_reads_back (s : state) text ids stamp :
  data_file s = Present text →
  json_load text = Some (state_document ids stamp) →
  load_known_listings s = (inr (list_to_set ids), s).
Proof.
  intros Hd Hj.
  unfold load_known_listings, try_except, mbind, M_bind, get_data_file, lift.
  rewrite Hd, Hj. cbn [state_document dict_get List.find fst snd].
  rewrite bool_decide_eq_true_2 by done. cbn [py_set snd].
  by rewrite set_of_items_strings.
Qed.

(** C4. Two runs in succession over sources that yield the same pages.
    On the same monitor the second run returns no record and adds
    nothing to the set, whatever the criteria of either run and however
    the saves go. In a new process the second run returns no record when
    the first save succeeded and [json.load] reads the file back as the
    document that was dumped. *)
Theorem second_run_finds_nothing ev1 ev2 urls crit1 crit2 (s : state) :
  (∀ url, url ∈ urls → web ev2 url = web ev1 url) →
  let s1 := snd (check_for_new_listings ev1 urls crit1 s) in
  (∃ matches1, fst (check_for_new_listings ev1 urls crit1 s) = inr matches1)
  ∧ (∃ s2, check_for_new_listings ev2 urls crit2 s1 = (inr [], s2)
           ∧ known_listings s2 = known_listings s1)
  ∧ (save_fault ev1 = NoFault →
     (∀ text, data_file s1 = Present text →
        ∃ stamp, json_load text
                 = Some (state_document (elements (known_listings s1)) stamp)) →
     ∃ s2, run_process ev2 urls crit2 (restart s1) = (inr [], s2)).
Proof.
  intros Hweb s1.
  destruct (check_for_new_listings_run ev1 urls crit1 s)
    as (matches1 & s0 & _ & E1 & _ & Hk1 & _).
  assert (Hs1 : known_listings s1
                = known_listings s ∪ list_to_set (concat (map (scraped_ids ev1) urls))).
  { subst s1. rewrite E1. cbn [snd]. by rewrite save_known_listings_known. }
  assert (Hids : concat (map (scraped_ids ev2) urls) = concat (map (scraped_ids ev1) urls)).
  { f_equal. apply map_ext_in. intros url Hurl%list_elem_of_In.
    unfold scraped_ids. by rewrite Hweb. }
  split; [exists matches1; by rewrite E1|]. split.
  - apply check_known_returns_nothing. rewrite Hids, Hs1. set_solver.
  - intros Hf Hread.
    assert (∃ text, data_file s1 = Present text) as [text Htext].
    { subst s1. rewrite E1. cbn [snd]. rewrite save_known_listings_run, Hf. by eexists. }
    destruct (Hread text Htext) as [stamp Hj].
    unfold run_process, init, mbind, M_bind.
    rewrite (load_known_listings_reads_back (restart s1) text _ stamp) by done.
    cbn [set_known].
    match goal with |- context [check_for_new_listings _ _ _ ?s'] =>
      destruct (check_known_returns_nothing ev2 urls crit2 s') as (s2 & E2 & _)
    end; [|by exists s2].
    cbn [known_listings]. rewrite Hids. intros id Hid.
    rewrite elem_of_list_to_set, elem_of_elements, Hs1. set_solver.
Qed.

(** C6, at a row whose price and area cells say [EUR] and [m2]: the
    price and the area are read from those two cells, and both cells are
    still put in the description. *)
Theorem description_keeps_eur_and_m2_cells ev (s : state) :
  ∃ l s',
    scrape_row ev example_url example_row_eur s = (inr (Some l), s')
    ∧ find_price (find_all_td example_row_eur) = extract_price (Some (py "100 EUR"))
    ∧ find_area (find_all_td example_row_eur) = extract_area (Some (py "50 m2"))
    ∧ description l = py "100 EUR | 50 m2 | Olaine".
Proof.
  destruct (scrape_row_returns ev example_url example_row_eur s)
    as (r & s' & E & _ & Hr).
  destruct r as [l|]; [|done].
  exists l, s'. split; [done|]. split; [done|]. split; [done|].
  destruct Hr as (_ & _ & _ & (title_cell & Ht & Htitle) & _ & _ & ->).
  rewrite Htitle. injection Ht as <- _. reflexivity.
Qed.
End OrchestratorFacts.

(** ** The scenario, and instances of the theorems *)

Lemma reference_decimal_ascii :
  ∀ c, c < 128 → @unicode_decimal reference_runtime c = ascii_decimal c.
Proof. intros c Hc. exact eq_refl. Defined.

Lemma reference_round_exact :
  ∀ q, binary64_exact q = true → @float_round reference_runtime q = Fin (Qred q).
Proof. intros q Hq. exact eq_refl. Defined.

Lemma reference_lower_ascii :
  ∀ s, forallb is_ascii s = true → @str_lower reference_runtime s = map ascii_lower s.
Proof. intros s Hs. exact eq_refl. Defined.

(** The end-to-end scenario of the specification: [a1] is accepted, [a2]
    is rejected for its price, the short row gives no record, and both ids
    are known afterwards. *)
Example end_to_end_scenario :
  let r := @check_for_new_listings reference_runtime (example_env NoFault)
             URLS_TO_MONITOR SEARCH_CRITERIA example_state in
  (∃ matches, fst r = inr matches ∧ map listing_id matches = [py "a1"])
  ∧ elements (known_listings (snd r)) ≡ₚ [py "a1"; py "a2"]
  ∧ data_file (snd r)
    = Present (json_dump (elements (known_listings (snd r))) example_stamp).
Proof.
  vm_compute. split; [by eexists|]. split; [|done].
  apply Permutation_swap.
Qed.

(** C5, as the claim states it, fails: a write that fails right after
    [open] leaves an empty data file where the dump of [a1] was. *)
Lemma failed_write_truncates_the_data_file :
  save_fault (example_env (WriteFails 0)) ≠ NoFault
  ∧ data_file (snd (save_known_listings (example_env (WriteFails 0)) example_saved_state))
    = Present []
  ∧ data_file (snd (save_known_listings (example_env (WriteFails 0)) example_saved_state))
    ≠ data_file example_saved_state.
Proof. split; [done|]. split; [done|]. vm_compute. discriminate. Qed.

Lemma every_extracted_id_is_persisted_witness :
  save_fault (example_env NoFault) = NoFault
  ∧ ∃ matches s',
      @check_for_new_listings reference_runtime (example_env NoFault)
        URLS_TO_MONITOR SEARCH_CRITERIA example_state = (inr matches, s')
      ∧ py "a2" ∈ elements (known_listings s')
      ∧ ∃ text, data_file s' = Present text
                ∧ substring (json_string (py "a2")) text.
Proof.
  split; [reflexivity|].
  destruct (@every_extracted_id_is_persisted reference_runtime (example_env NoFault)
              URLS_TO_MONITOR SEARCH_CRITERIA example_state eq_refl)
    as (matches & s' & E & _ & _ & H).
  exists matches, s'. split; [exact E|].
  pose (r := @scrape_listings reference_runtime (example_env NoFault) example_url
               example_state).
  pose (ls := match fst r with inr ls => ls | inl _ => [] end).
  replace (py "a2") with (listing_id (nth 1 ls example_listing))
    by (vm_compute; reflexivity).
  apply (H example_url example_state ls (snd r)).
  - unfold URLS_TO_MONITOR, example_url. apply list_elem_of_here.
  - vm_compute. reflexivity.
  - vm_compute. apply list_elem_of_further, list_elem_of_here.
Defined.

Lemma zero_price_and_area_are_not_filtered_witness :
  num_is_zero (price example_listing)
  ∧ @meets_criteria reference_runtime
      {| max_price := Fin 1; min_price := Fin 5;
         keywords_include := keywords_include SEARCH_CRITERIA;
         keywords_exclude := keywords_exclude SEARCH_CRITERIA;
         min_area := min_area SEARCH_CRITERIA |} example_listing example_state
    = @meets_criteria reference_runtime SEARCH_CRITERIA example_listing example_state.
Proof.
  assert (Hz : num_is_zero (price example_listing)) by reflexivity.
  split; [exact Hz|].
  exact (proj1 (@zero_price_and_area_are_not_filtered reference_runtime
                  SEARCH_CRITERIA example_listing example_state) Hz (Fin 5) (Fin 1)).
Defined.

Lemma keyword_matching_witness :
  (∀ s, forallb is_ascii s = true → @str_lower reference_runtime s = map ascii_lower s)
  ∧ @meets_criteria reference_runtime
      {| max_price := Fin 150000; min_price := Fin 10000;
         keywords_include := [py "house"]; keywords_exclude := [];
         min_area := Fin 50 |} example_listing example_state
    = (inr true, example_state).
Proof.
  split; [exact reference_lower_ascii|].
  apply (@keyword_matching reference_runtime reference_lower_ascii).
  - reflexivity.
  - intros keyword Hk. apply elem_of_nil in Hk. destruct Hk.
  - reflexivity.
  - reflexivity.
  - intros H. vm_compute in H. discriminate.
  - intros H. vm_compute in H. discriminate.
Defined.

Lemma second_run_finds_nothing_witness :
  (∀ url, url ∈ URLS_TO_MONITOR →
          web (example_env OpenFails) url = web (example_env NoFault) url)
  ∧ ∃ s2,
      @run_process example_runtime (example_env OpenFails) URLS_TO_MONITOR
        SEARCH_CRITERIA
        (restart (snd (@check_for_new_listings example_runtime (example_env NoFault)
                         URLS_TO_MONITOR SEARCH_CRITERIA example_state)))
      = (inr [], s2).
Proof.
  assert (Hweb : ∀ url, url ∈ URLS_TO_MONITOR →
            web (example_env OpenFails) url = web (example_env NoFault) url)
    by (intros url Hurl; reflexivity).
  split; [exact Hweb|].
  apply (@second_run_finds_nothing example_runtime (example_env NoFault)
           (example_env OpenFails) URLS_TO_MONITOR SEARCH_CRITERIA SEARCH_CRITERIA
           example_state Hweb).
  - reflexivity.
  - intros text Htext. exists example_stamp.
    vm_compute in Htext. injection Htext as <-. vm_compute. reflexivity.
Defined.

Lemma failed_save_is_logged_and_may_truncate_witness :
  save_fault (example_env (WriteFails 0)) ≠ NoFault
  ∧ ∃ s', save_known_listings (example_env (WriteFails 0)) example_saved_state
          = (inr tt, s')
          ∧ log s' = [Error_saving_known_listings OSError]
          ∧ data_file s' = Present [].
Proof.
  assert (Hf : save_fault (example_env (WriteFails 0)) ≠ NoFault)
    by (intros H; discriminate H).
  split; [exact Hf|].
  destruct (failed_save_is_logged_and_may_truncate (example_env (WriteFails 0))
              example_saved_state Hf) as (s' & E & _ & Hlog & Hfile).
  exists s'. split; [exact E|]. split; [exact Hlog|exact Hfile].
Defined.

Lemma extract_price_strip_and_parse_witness :
  (∀ c, c < 128 → @unicode_decimal reference_runtime c = ascii_decimal c)
  ∧ @unicode_decimal reference_runtime 8364 = None
  ∧ (∀ q, binary64_exact q = true → @float_round reference_runtime q = Fin (Qred q))
  ∧ @extract_price reference_runtime (Some (py "150,000 €")) = inr (Fin 150000).
Proof.
  split; [exact reference_decimal_ascii|]. split; [reflexivity|].
  split; [exact reference_round_exact|].
  exact (proj1 (proj2 (@extract_price_strip_and_parse reference_runtime
                         reference_decimal_ascii eq_refl reference_round_exact))).
Defined.

Lemma extract_area_first_number_witness :
  (∀ c, c < 128 → @unicode_decimal reference_runtime c = ascii_decimal c)
  ∧ @unicode_decimal reference_runtime 8364 = None
  ∧ (∀ q, binary64_exact q = true → @float_round reference_runtime q = Fin (Qred q))
  ∧ @extract_area reference_runtime (Some (py "75.5 m²")) = inr (Fin (151 # 2)).
Proof.
  split; [exact reference_decimal_ascii|]. split; [reflexivity|].
  split; [exact reference_round_exact|].
  exact (proj1 (proj2 (@extract_area_first_number reference_runtime
                         reference_decimal_ascii eq_refl reference_round_exact))).
Defined.

Lemma load_known_listings_never_fails_witness :
  data_file example_state = Absent
  ∧ ∃ k s', @load_known_listings reference_runtime example_state = (inr k, s')
            ∧ k = ∅.
Proof.
  split; [reflexivity|].
  destruct (@load_known_listings_never_fails reference_runtime example_state)
    as (k & s' & E & _ & Habsent & _).
  exists k, s'. split; [exact E|]. exact (proj1 (Habsent eq_refl)).
Defined.

Lemma rows_with_fewer_than_four_cells_are_dropped_witness :
  (length (find_all_td example_row_short) < 4)%nat
  ∧ @scrape_row reference_runtime (example_env NoFault) example_url example_row_short
      example_state = (inr None, example_state).
Proof.
  assert (Hlen : (length (find_all_td example_row_short) < 4)%nat) by (simpl; lia).
  split; [exact Hlen|].
  exact (proj1 (@rows_with_fewer_than_four_cells_are_dropped reference_runtime
                  (example_env NoFault) example_url example_state)
           example_row_short Hlen).
Defined.

(** * Further properties *)

(** ** Strings and the row id *)

Lemma replace_from_drop old new k s :
  replace_from old new k s = replace_from old new 0 (drop k s).
Proof.
  revert s. induction k as [|k IH]; intros s; [done|].
  destruct s as [|c s]; [done|]. simpl. apply IH.
Qed.

Lemma replace_from_absent old new s :
  str_in old s = false → replace_from old new 0 s = s.
Proof.
  induction s as [|c s IH]; [done|]. cbn [str_in replace_from].
  intros [H1 H2]%orb_false_iff. rewrite H1. f_equal. by apply IH.
Qed.

Lemma startswith_app p s : startswith p (p ++ s) = true.
Proof. apply startswith_spec. by exists s. Qed.

Lemma str_replace_prefix old new rest :
  old ≠ [] → str_in old rest = false → str_replace old new (old ++ rest) = new ++ rest.
Proof.
  intros Hne Habs. unfold str_replace. destruct old as [|c old]; [done|].
  cbn [app replace_from]. change (c :: old ++ rest) with ((c :: old) ++ rest).
  rewrite startswith_app. f_equal.
  rewrite replace_from_drop. cbn [length Nat.sub]. rewrite Nat.sub_0_r.
  rewrite drop_app_length. by apply replace_from_absent.
Qed.

(** X1. For a row whose id is [tr_] followed by a text in which [tr_] does
    not occur again, the listing id is that text. *)
Theorem row_listing_id_strips_the_prefix rest cells :
  ¬ substring (py "tr_") rest →
  row_listing_id {| tr_id := Some (py "tr_" ++ rest); find_all_td := cells |} = rest.
Proof.
  intros Habs.
  change (row_listing_id _) with (str_replace (py "tr_") [] (py "tr_" ++ rest)).
  rewrite str_replace_prefix; [done|done|].
  apply not_true_is_false. by rewrite str_in_spec.
Qed.

Lemma row_listing_id_strips_the_prefix_witness :
  ¬ substring (py "tr_") (py "52431876")
  ∧ row_listing_id {| tr_id := Some (py "tr_" ++ py "52431876");
                      find_all_td := [] |} = py "52431876".
Proof.
  assert (H : ¬ substring (py "tr_") (py "52431876")).
  { rewrite <- str_in_spec. vm_compute. discriminate. }
  split; [exact H|]. exact (row_listing_id_strips_the_prefix _ [] H).
Defined.

(** ** Field normaliser *)
Section NormaliserMore.
Context {rt : PyRuntime}.

Lemma filter_filter_implied {A} (f g : A → bool) l :
  (∀ x, f x = true → g x = true) → List.filter f (List.filter g l) = List.filter f l.
Proof.
  intros H. induction l as [|x l IH]; [done|]. simpl.
  destruct (g x) eqn:Eg; simpl.
  - by rewrite IH.
  - destruct (f x) eqn:Ef; [|done]. apply H in Ef. congruence.
Qed.

Lemma count_periods_cleaned text :
  count_periods (cleaned_price_text text) = count_periods text.
Proof.
  unfold count_periods, cleaned_price_text. f_equal.
  rewrite !filter_filter_implied; [done| |].
  - intros c Hc. rewrite Hc. by rewrite orb_true_r.
  - intros c Hc%N.eqb_eq. by subst.
Qed.

Lemma decimal_literal_has_digit s ip fp :
  decimal_literal s ip fp → forallb not_decimal s = false.
Proof.
  assert (H : ∀ a b, a ≠ [] → forallb is_decimal a = true →
                     forallb not_decimal (a ++ b) = false).
  { intros [|c a] b Hne Ha; [done|]. simpl in *.
    apply andb_true_iff in Ha as [Hc _]. unfold not_decimal. by rewrite Hc. }
  intros [ip' Hne Hip | ip' fp' Hne Hip Hfp].
  - rewrite <- (app_nil_r ip'). by apply H.
  - destruct ip' as [|c ip'].
    + destruct Hne as [|Hne]; [done|]. simpl.
      rewrite <- (app_nil_r fp'). rewrite (H _ _ Hne Hfp). apply andb_false_r.
    + by apply H.
Qed.

Hypothesis decimal_ascii : ∀ c, c < 128 → unicode_decimal c = ascii_decimal c.

Lemma count_periods_digits s : forallb is_decimal s = true → count_periods s = 0%nat.
Proof using decimal_ascii.
  unfold count_periods. induction s as [|c s IH]; [done|]. simpl.
  intros [Hc Hs]%andb_true_iff. destruct (N.eqb_spec c period) as [->|]; [|by apply IH].
  unfold is_decimal in Hc. by rewrite decimal_ascii in Hc.
Qed.

Lemma decimal_literal_periods s ip fp :
  decimal_literal s ip fp → (count_periods s ≤ 1)%nat.
Proof using decimal_ascii.
  intros [ip' Hne Hip | ip' fp' Hne Hip Hfp].
  - rewrite count_periods_digits by done. lia.
  - pose proof (count_periods_digits _ Hip) as H1.
    pose proof (count_periods_digits _ Hfp) as H2.
    unfold count_periods in *. rewrite List.filter_app, length_app.
    cbn [List.filter]. rewrite N.eqb_refl. cbn [length].
    assert (E : ∀ a b, a = 0%nat → b = 0%nat → (a + S b ≤ 1)%nat) by lia.
    by apply E.
Qed.

(** X2. A price text without any digit, or with more than one period, gives
    the price 0: "N/A", a lone currency sign, or a number written with
    periods as thousands separators. *)
Theorem extract_price_without_digit_or_with_two_periods text :
  forallb not_decimal text = true ∨ (2 ≤ count_periods text)%nat →
  extract_price (Some text) = inr (Fin 0).
Proof using decimal_ascii.
  intros H. destruct text as [|c s]; [done|].
  rewrite extract_price_cleaned.
  rewrite parse_decimal_not_literal; [done|].
  intros ip fp Hl. destruct H as [H|H].
  - apply decimal_literal_has_digit in Hl.
    unfold cleaned_price_text in Hl.
    rewrite forallb_filter in Hl; [done|]. by apply forallb_filter.
  - apply decimal_literal_periods in Hl. rewrite count_periods_cleaned in Hl. lia.
Qed.

(** X3. Text before the first digit does not change the area that is
    read. *)
Theorem extract_area_ignores_text_before_the_first_digit before s :
  forallb not_decimal before = true →
  extract_area (Some (before ++ s)) = extract_area (Some s).
Proof.
  intros Hb. destruct s as [|c s].
  - rewrite app_nil_r. destruct before as [|b before]; [done|].
    unfold extract_area. by rewrite re_search_number_none.
  - destruct before as [|b before]; [done|].
    unfold extract_area. cbn [app].
    change (b :: before ++ c :: s) with ((b :: before) ++ c :: s).
    by rewrite re_search_number_skip.
Qed.
End NormaliserMore.

Lemma extract_price_without_digit_or_with_two_periods_witness :
  (∀ c, c < 128 → @unicode_decimal reference_runtime c = ascii_decimal c)
  ∧ (2 ≤ count_periods (py "1.234.567 €"))%nat
  ∧ @extract_price reference_runtime (Some (py "1.234.567 €")) = inr (Fin 0).
Proof.
  assert (H : (2 ≤ count_periods (py "1.234.567 €"))%nat) by (vm_compute; lia).
  split; [exact reference_decimal_ascii|]. split; [exact H|].
  exact (@extract_price_without_digit_or_with_two_periods reference_runtime
           reference_decimal_ascii (py "1.234.567 €") (or_intror H)).
Defined.

Lemma extract_area_ignores_text_before_the_first_digit_witness :
  forallb (@not_decimal reference_runtime) (py "Platība: ") = true
  ∧ @extract_area reference_runtime (Some (py "Platība: " ++ py "75.5 m²"))
    = @extract_area reference_runtime (Some (py "75.5 m²")).
Proof.
  assert (H : forallb (@not_decimal reference_runtime) (py "Platība: ") = true)
    by (vm_compute; reflexivity).
  split; [exact H|].
  exact (@extract_area_ignores_text_before_the_first_digit reference_runtime
           (py "Platība: ") (py "75.5 m²") H).
Defined.

(** ** Record extractor *)
Section ExtractorMore.
Context {rt : PyRuntime}.

Lemma currency_marker_test text :
  str_in (py "€") text || str_in (py "EUR") text = true ↔ has_currency_marker text.
Proof. unfold has_currency_marker. by rewrite orb_true_iff, !str_in_spec. Qed.

Lemma area_marker_test text :
  str_in (py "m²") text || str_in (py "m2") text = true ↔ has_area_marker text.
Proof. unfold has_area_marker. by rewrite orb_true_iff, !str_in_spec. Qed.

(** X4. The price of a row is read from the first cell that has a euro
    sign or [EUR] in its text, whatever that cell holds and whatever comes
    after it; without such a cell the price is 0. *)
Theorem price_is_read_from_the_first_marked_cell cells :
  ((∀ cell, cell ∈ cells → ¬ has_currency_marker (get_text cell)) →
   find_price cells = inr (Fin 0))
  ∧ (∀ before cell after,
       cells = before ++ cell :: after →
       (∀ c, c ∈ before → ¬ has_currency_marker (get_text c)) →
       has_currency_marker (get_text cell) →
       find_price cells = extract_price (Some (get_text cell))).
Proof.
  split.
  - induction cells as [|c cells IH]; [done|]. intros Hnone. cbn [find_price].
    destruct (_ || _) eqn:E.
    + apply currency_marker_test in E. destruct (Hnone c); [left|done].
    + apply IH. intros cell Hcell. apply Hnone. by right.
  - intros before cell after -> Hbefore Hcell.
    induction before as [|c before IH]; cbn [app find_price].
    + apply currency_marker_test in Hcell. by rewrite Hcell.
    + destruct (_ || _) eqn:E.
      * apply currency_marker_test in E. destruct (Hbefore c); [left|done].
      * apply IH. intros c' Hc'. apply Hbefore. by right.
Qed.

(** X5. The area of a row is read from the first cell that has [m²] or
    [m2] in its text; without such a cell the area is 0. *)
Theorem area_is_read_from_the_first_marked_cell cells :
  ((∀ cell, cell ∈ cells → ¬ has_area_marker (get_text cell)) →
   find_area cells = inr (Fin 0))
  ∧ (∀ before cell after,
       cells = before ++ cell :: after →
       (∀ c, c ∈ before → ¬ has_area_marker (get_text c)) →
       has_area_marker (get_text cell) →
       find_area cells = extract_area (Some (get_text cell))).
Proof.
  split.
  - induction cells as [|c cells IH]; [done|]. intros Hnone. cbn [find_area].
    destruct (_ || _) eqn:E.
    + apply area_marker_test in E. destruct (Hnone c); [left|done].
    + apply IH. intros cell Hcell. apply Hnone. by right.
  - intros before cell after -> Hbefore Hcell.
    induction before as [|c before IH]; cbn [app find_area].
    + apply area_marker_test in Hcell. by rewrite Hcell.
    + destruct (_ || _) eqn:E.
      * apply area_marker_test in E. destruct (Hbefore c); [left|done].
      * apply IH. intros c' Hc'. apply Hbefore. by right.
Qed.

(** X6. The parts of the description are exactly the texts of the cells,
    in cell order and as often as they occur, that are non-empty, differ
    from the title and contain neither a euro sign nor [m²]. *)
Theorem description_parts_are_the_plain_cells title cells :
  description_parts title cells
  = List.filter (is_description_text title) (map get_text cells)
  ∧ ∀ text,
      is_description_text title text = true ↔
      text ≠ [] ∧ text ≠ title
      ∧ ¬ substring (py "€") text ∧ ¬ substring (py "m²") text.
Proof.
  split; [apply description_parts_spec|].
  intros text. unfold is_description_text.
  rewrite !andb_true_iff, !negb_true_iff, bool_decide_eq_false.
  rewrite <- !not_true_iff_false, !str_in_spec.
  split.
  - intros [[[Hne Ht] He] Hm]. split; [by destruct text|done].
  - intros (Hne & Ht & He & Hm). split; [|done]. split; [|done].
    split; [|done]. by destruct text.
Qed.



(** X8. [scrape_listings] never raises and changes neither the monitor's
    set nor the data file. When the page cannot be fetched it returns no
    record and logs the error. Otherwise it returns one record for each row
    that has a listing id, at least four cells and a linked cell, in page
    order; the other rows are passed over. *)
Theorem scrape_listings_skips_and_keeps_order ev url (s : state) :
  ∃ ls s',
    scrape_listings ev url s = (inr ls, s')
    ∧ same_store s s'
    ∧ match web ev url with
      | None =>
        ls = []
        ∧ log s' = log s ++ [Info_scraping_url url;
                             Error_scraping_url url RequestException;
                             Info_found_listings 0 url]
      | Some doc =>
        Forall2 (row_produces url) (List.filter row_listed (find_listing_rows doc)) ls
      end.
Proof.
  destruct (scrape_listings_returns ev url s) as (ls & s' & E & Hs & H).
  exists ls, s'. split; [done|]. split; [done|].
  destruct (web ev url) as [doc|] eqn:Ew; [done|]. split; [done|].
  subst ls. unfold scrape_listings, try_except, fetch, mbind, M_bind in E.
  rewrite Ew in E. cbn in E. injection E as <-. cbn. by rewrite <- !app_assoc.
Qed.
End ExtractorMore.

Lemma price_is_read_from_the_first_marked_cell_witness :
  has_currency_marker (get_text (text_cell "100 EUR"))
  ∧ @find_price reference_runtime (find_all_td example_row_eur)
    = @extract_price reference_runtime (Some (py "100 EUR")).
Proof.
  assert (H : has_currency_marker (get_text (text_cell "100 EUR"))).
  { right. apply str_in_spec. vm_compute. reflexivity. }
  split; [exact H|].
  apply (proj2 (@price_is_read_from_the_first_marked_cell reference_runtime
                  (find_all_td example_row_eur))
           [link_cell "House" "/msg/lv/a3.html"] (text_cell "100 EUR")
           [text_cell "50 m2"; text_cell "Olaine"] eq_refl); [|exact H].
  intros c Hc%list_elem_of_singleton. subst c.
  intros [Hm|Hm]; apply str_in_spec in Hm; vm_compute in Hm; discriminate.
Defined.

Lemma area_is_read_from_the_first_marked_cell_witness :
  has_area_marker (get_text (text_cell "50 m2"))
  ∧ @find_area reference_runtime (find_all_td example_row_eur)
    = @extract_area reference_runtime (Some (py "50 m2")).
Proof.
  assert (H : has_area_marker (get_text (text_cell "50 m2"))).
  { right. apply str_in_spec. vm_compute. reflexivity. }
  split; [exact H|].
  apply (proj2 (@area_is_read_from_the_first_marked_cell reference_runtime
                  (find_all_td example_row_eur))
           [link_cell "House" "/msg/lv/a3.html"; text_cell "100 EUR"]
           (text_cell "50 m2") [text_cell "Olaine"] eq_refl); [|exact H].
  intros c Hc. apply list_elem_of_In in Hc.
  destruct Hc as [<-|[<-|[]]];
    intros [Hm|Hm]; apply str_in_spec in Hm; vm_compute in Hm; discriminate.
Defined.

Lemma description_parts_are_the_plain_cells_witness :
  description_parts (py "Zeme") (find_all_td example_row_twice)
  = [py "Olaine"; py "Riga"; py "Olaine"].
Proof.
  rewrite (proj1 (description_parts_are_the_plain_cells (py "Zeme")
                    (find_all_td example_row_twice))).
  vm_compute. reflexivity.
Defined.


Lemma scrape_listings_skips_and_keeps_order_witness :
  web (example_env NoFault) (py "https://www.ss.lv/lv/other/") = None
  ∧ ∃ s', @scrape_listings reference_runtime (example_env NoFault)
            (py "https://www.ss.lv/lv/other/") example_state = (inr [], s').
Proof.
  split; [reflexivity|].
  destruct (@scrape_listings_skips_and_keeps_order reference_runtime
              (example_env NoFault) (py "https://www.ss.lv/lv/other/") example_state)
    as (ls & s' & E & _ & H).
  change (web (example_env NoFault) (py "https://www.ss.lv/lv/other/"))
    with (@None soup) in H.
  destruct H as [-> _]. exists s'. exact E.
Defined.

(** ** Run orchestrator *)
Section OrchestratorMore.
Context {rt : PyRuntime}.

Lemma classify_reports crit ls acc (s : state) :
  returns (classify crit ls acc) s (fun r s' =>
    known_listings s' = known_listings s ∪ list_to_set (map listing_id ls)
    ∧ ∃ new, r = acc ++ new
             ∧ Forall (fun l => (listing_id l ∉ known_listings s) ∧ (l ∈ ls)
                                ∧ criteria_check crit l = true) new
             ∧ NoDup (map listing_id new)).
Proof.
  revert acc s. induction ls as [|l ls IH]; intros acc s.
  - apply returns_ret. split; [set_solver|].
    exists []. rewrite app_nil_r. repeat split; [done|constructor].
  - cbn [classify]. apply returns_bind, returns_get_known.
    destruct (decide (listing_id l ∉ known_listings s)) as [Hnew|Hold].
    + rewrite bool_decide_eq_true_2 by done.
      apply returns_bind, returns_set_known, returns_bind.
      eexists _, _. split; [apply meets_criteria_run|].
      destruct (criteria_check crit l) eqn:Hok.
      * apply returns_bind, returns_logger.
        eapply returns_mono; [apply IH|]. simpl.
        intros r s' (Hk & new & -> & Hnews & Hnd).
        split; [set_solver|].
        exists (l :: new). rewrite <- app_assoc. split; [done|]. split.
        -- constructor; [split; [done|split; [by left|done]]|].
           eapply Forall_impl; [exact Hnews|]. simpl.
           intros l' (H1 & H2 & H3). split; [set_solver|]. split; [by right|done].
        -- cbn [map]. apply NoDup_cons. split; [|done].
           intros Hin. apply list_elem_of_fmap in Hin as (l' & Heq & Hl').
           eapply Forall_forall in Hnews as (H1 & _); [|exact Hl'].
           rewrite <- Heq in H1. set_solver.
      * eapply returns_mono; [apply IH|]. simpl.
        intros r s' (Hk & new & -> & Hnews & Hnd).
        split; [set_solver|].
        exists new. split; [done|]. split; [|done].
        eapply Forall_impl; [exact Hnews|]. simpl.
        intros l' (H1 & H2 & H3). split; [set_solver|]. split; [by right|done].
    + rewrite bool_decide_eq_false_2 by done.
      eapply returns_mono; [apply IH|]. simpl.
      intros r s' (Hk & new & -> & Hnews & Hnd).
      split; [apply dec_stable in Hold; set_solver|].
      exists new. split; [done|]. split; [|done].
      eapply Forall_impl; [exact Hnews|]. simpl.
      intros l' (H1 & H2 & H3). split; [done|]. split; [by right|done].
Qed.

Lemma scrape_listings_origin ev url (s : state) ls s' l :
  scrape_listings ev url s = (inr ls, s') → l ∈ ls →
  ∃ doc row, web ev url = Some doc ∧ row ∈ doc ∧ row_produces url row l.
Proof.
  intros E Hl.
  destruct (returns_run _ _ _ _ _ (scrape_listings_returns ev url s) E) as [_ H].
  destruct (web ev url) as [doc|]; [|subst; by apply elem_of_nil in Hl].
  apply list_elem_of_lookup in Hl as [i Hi].
  destruct (Forall2_lookup_r _ _ _ _ _ H Hi) as (row & Hrow & Hp).
  apply list_elem_of_lookup_2 in Hrow.
  apply list_elem_of_In, filter_In in Hrow as [Hrow _].
  apply filter_In in Hrow as [Hrow _]. apply list_elem_of_In in Hrow.
  by exists doc, row.
Qed.

Lemma check_urls_reports ev crit urls acc (s : state) :
  returns (check_urls ev crit urls acc) s (fun r s' =>
    known_listings s ⊆ known_listings s'
    ∧ ∃ new, r = acc ++ new
             ∧ Forall (fun l => (listing_id l ∉ known_listings s)
                                ∧ (listing_id l ∈ known_listings s')
                                ∧ criteria_check crit l = true
                                ∧ scraped_from ev urls l) new
             ∧ NoDup (map listing_id new)).
Proof.
  revert acc s. induction urls as [|url urls IH]; intros acc s.
  - apply returns_ret. split; [done|].
    exists []. rewrite app_nil_r. repeat split; [done|constructor].
  - cbn [check_urls]. apply returns_bind, returns_try, returns_bind.
    destruct (scrape_listings_returns ev url s) as (ls & s0 & E & [Hk0 _] & _).
    exists ls, s0. split; [done|].
    eapply returns_mono; [apply classify_reports|]. simpl.
    intros r1 s1 (Hk1 & new1 & -> & Hnew1 & Hnd1). rewrite Hk0 in Hk1.
    eapply returns_mono; [apply IH|]. simpl.
    intros r2 s2 (Hk2 & new2 & -> & Hnew2 & Hnd2).
    split; [set_solver|].
    exists (new1 ++ new2). rewrite <- app_assoc. split; [done|]. split.
    + apply Forall_app. split.
      * eapply Forall_impl; [exact Hnew1|]. simpl.
        intros l (H1 & H2 & H3). rewrite Hk0 in H1. split; [done|].
        split; [apply Hk2; rewrite Hk1; apply elem_of_union_r, elem_of_list_to_set;
                by apply list_elem_of_fmap_2|].
        split; [done|].
        destruct (scrape_listings_origin _ _ _ _ _ _ E H2) as (doc & row & ? & ? & ?).
        exists url, doc, row. split; [by left|done].
      * eapply Forall_impl; [exact Hnew2|]. simpl.
        intros l (H1 & H2 & H3 & url' & doc & row & ? & ?).
        split; [rewrite Hk1 in H1; set_solver|]. split; [done|]. split; [done|].
        exists url', doc, row. split; [by right|done].
    + rewrite map_app. apply NoDup_app. split; [done|]. split; [|done].
      intros id Hin1 Hin2.
      apply list_elem_of_fmap in Hin1 as (l1 & -> & Hl1).
      apply list_elem_of_fmap in Hin2 as (l2 & Heq & Hl2).
      eapply Forall_forall in Hnew1 as (_ & H1 & _); [|exact Hl1].
      eapply Forall_forall in Hnew2 as (H2 & _); [|exact Hl2].
      rewrite <- Heq in H2. apply H2. rewrite Hk1.
      apply elem_of_union_r, elem_of_list_to_set. by apply list_elem_of_fmap_2.
Qed.

Lemma check_for_new_listings_reports ev urls crit (s : state) matches s' :
  check_for_new_listings ev urls crit s = (inr matches, s') →
  known_listings s ⊆ known_listings s'
  ∧ Forall (fun l => (listing_id l ∉ known_listings s)
                     ∧ (listing_id l ∈ known_listings s')
                     ∧ criteria_check crit l = true
                     ∧ scraped_from ev urls l) matches
  ∧ NoDup (map listing_id matches).
Proof.
  intros E.
  destruct (check_urls_reports ev crit urls [] s)
    as (r & s1 & E1 & Hk & new & -> & Hnew & Hnd).
  unfold check_for_new_listings, mbind, M_bind in E. rewrite E1 in E.
  rewrite save_known_listings_run in E. injection E as <- <-.
  assert (Hsave : known_listings
            match save_fault ev with
            | NoFault =>
              {| known_listings := known_listings s1;
                 data_file := Present (json_dump (elements (known_listings s1))
                                         (now ev (clock s1)));
                 clock := S (clock s1); log := log s1 |}
            | OpenFails =>
              {| known_listings := known_listings s1; data_file := data_file s1;
                 clock := S (clock s1);
                 log := log s1 ++ [Error_saving_known_listings OSError] |}
            | WriteFails n =>
              {| known_listings := known_listings s1;
                 data_file := Present (take n (json_dump (elements (known_listings s1))
                                                 (now ev (clock s1))));
                 clock := S (clock s1);
                 log := log s1 ++ [Error_saving_known_listings OSError] |}
            end = known_listings s1) by (by destruct (save_fault ev)).
  rewrite Hsave. done.
Qed.

(** X9. One run never raises, whatever the fetches and the save do, and
    afterwards the monitor's set is the set from before together with the
    ids of all records scraped: it never shrinks, and a failed save does
    not undo it. *)
Theorem a_run_always_returns_and_only_adds_ids ev urls crit (s : state) :
  ∃ matches s',
    check_for_new_listings ev urls crit s = (inr matches, s')
    ∧ known_listings s ⊆ known_listings s'
    ∧ known_listings s'
      = known_listings s ∪ list_to_set (concat (map (scraped_ids ev) urls)).
Proof.
  destruct (check_for_new_listings_run ev urls crit s)
    as (matches & s1 & _ & E & _ & Hk & _).
  eexists _, _. split; [exact E|].
  rewrite save_known_listings_known, Hk. split; [set_solver|done].
Qed.

(** X10. Every record that a run returns was not known before the run, is
    known after it, is accepted by [meets_criteria], and was built from a
    row of the page of one of the monitored URLs. *)
Theorem returned_records_are_new_and_accepted ev urls crit (s : state) matches s' l :
  check_for_new_listings ev urls crit s = (inr matches, s') → l ∈ matches →
  (listing_id l ∉ known_listings s)
  ∧ (listing_id l ∈ known_listings s')
  ∧ (∀ s0, meets_criteria crit l s0 = (inr true, s0))
  ∧ scraped_from ev urls l.
Proof.
  intros E Hl. destruct (check_for_new_listings_reports _ _ _ _ _ _ E) as (_ & H & _).
  eapply Forall_forall in H as (H1 & H2 & H3 & H4); [|exact Hl].
  split; [done|]. split; [done|]. split; [|done].
  intros s0. by rewrite meets_criteria_run, H3.
Qed.

(** X11. No listing id is returned twice by one run, also when a page
    repeats an id or two monitored pages show the same listing. *)
Theorem a_run_returns_each_id_once ev urls crit (s : state) matches s' :
  check_for_new_listings ev urls crit s = (inr matches, s') →
  NoDup (map listing_id matches).
Proof.
  intros E. by destruct (check_for_new_listings_reports _ _ _ _ _ _ E) as (_ & _ & H).
Qed.

(** X12. Across two runs on the same monitor, with any pages, criteria and
    save outcomes, no id returned by the first run is returned by the
    second. *)
Theorem no_id_is_returned_by_two_runs ev1 ev2 urls1 urls2 crit1 crit2
    (s : state) matches1 s1 matches2 s2 l1 l2 :
  check_for_new_listings ev1 urls1 crit1 s = (inr matches1, s1) →
  check_for_new_listings ev2 urls2 crit2 s1 = (inr matches2, s2) →
  l1 ∈ matches1 → l2 ∈ matches2 →
  listing_id l1 ≠ listing_id l2.
Proof.
  intros E1 E2 Hl1 Hl2 Heq.
  destruct (check_for_new_listings_reports _ _ _ _ _ _ E1) as (_ & H1 & _).
  destruct (check_for_new_listings_reports _ _ _ _ _ _ E2) as (_ & H2 & _).
  eapply Forall_forall in H1 as (_ & H1 & _); [|exact Hl1].
  eapply Forall_forall in H2 as (H2 & _); [|exact Hl2].
  rewrite Heq in H1. done.
Qed.

Lemma classify_distinct crit ls acc (s : state) :
  NoDup (map listing_id ls) →
  (∀ l, l ∈ ls → listing_id l ∉ known_listings s) →
  ∃ s', classify crit ls acc s = (inr (acc ++ List.filter (criteria_check crit) ls), s').
Proof.
  revert acc s. induction ls as [|l ls IH]; intros acc s Hnd Hnew.
  - eexists. cbn. by rewrite app_nil_r.
  - cbn [map] in Hnd. apply NoDup_cons in Hnd as [Hl Hnd].
    assert (Hrest : ∀ l', l' ∈ ls →
              listing_id l' ∉ ({[ listing_id l ]} ∪ known_listings s : gset pystr)).
    { intros l' Hl'. apply not_elem_of_union. split.
      - intros Heq%elem_of_singleton. apply Hl. rewrite <- Heq.
        by apply list_elem_of_fmap_2.
      - apply Hnew. by right. }
    cbn [classify List.filter]. unfold mbind, M_bind, get_known.
    rewrite bool_decide_eq_true_2 by (apply Hnew; by left).
    cbn [set_known]. rewrite meets_criteria_run.
    destruct (criteria_check crit l).
    + cbn [logger].
      match goal with |- context [classify _ _ ?a ?s0] =>
        destruct (IH a s0 Hnd) as [s' E]; [exact Hrest|]
      end.
      exists s'. rewrite E. by rewrite <- app_assoc.
    + match goal with |- context [classify _ _ ?a ?s0] =>
        destruct (IH a s0 Hnd) as [s' E]; [exact Hrest|]
      end.
      by exists s'.
Qed.

(** X13. When the records scraped from a single monitored page have
    distinct ids, none of them known, the run returns exactly those that
    [meets_criteria] accepts, in page order. *)
Theorem a_run_returns_the_accepted_new_records ev url crit (s : state) ls s1 :
  scrape_listings ev url s = (inr ls, s1) →
  NoDup (map listing_id ls) →
  (∀ l, l ∈ ls → listing_id l ∉ known_listings s) →
  ∃ s', check_for_new_listings ev [url] crit s
        = (inr (List.filter (criteria_check crit) ls), s').
Proof.
  intros E Hnd Hnew.
  destruct (returns_run _ _ _ _ _ (scrape_listings_returns ev url s) E) as [[Hk _] _].
  destruct (classify_distinct crit ls [] s1 Hnd) as [s2 E2].
  { intros l Hl. rewrite Hk. by apply Hnew. }
  unfold check_for_new_listings, mbind, M_bind. cbn [check_urls].
  unfold mbind, M_bind, try_except. rewrite E, E2. cbn [app mret M_ret].
  rewrite save_known_listings_run. by eexists.
Qed.
End OrchestratorMore.

Lemma returned_records_are_new_and_accepted_witness :
  ∃ matches s' l,
    @check_for_new_listings reference_runtime (example_env NoFault)
      URLS_TO_MONITOR SEARCH_CRITERIA example_state = (inr matches, s')
    ∧ l ∈ matches
    ∧ listing_id l ∈ known_listings s'.
Proof.
  pose (r := @check_for_new_listings reference_runtime (example_env NoFault)
               URLS_TO_MONITOR SEARCH_CRITERIA example_state).
  pose (ms := match fst r with inr ms => ms | inl _ => [] end).
  assert (E : r = (inr ms, snd r)) by (vm_compute; reflexivity).
  assert (Hl : nth 0 ms example_listing ∈ ms) by (vm_compute; apply list_elem_of_here).
  exists ms, (snd r), (nth 0 ms example_listing).
  split; [exact E|]. split; [exact Hl|].
  exact (proj1 (proj2 (@returned_records_are_new_and_accepted reference_runtime
                         (example_env NoFault) URLS_TO_MONITOR SEARCH_CRITERIA
                         example_state ms (snd r) _ E Hl))).
Defined.

Lemma a_run_returns_each_id_once_witness :
  scraped_ids example_env_repeating example_url = [py "a1"; py "a2"; py "a1"]
  ∧ ∃ matches s',
      @check_for_new_listings reference_runtime example_env_repeating
        URLS_TO_MONITOR example_criteria_wide example_state = (inr matches, s')
      ∧ map listing_id matches = [py "a1"; py "a2"]
      ∧ NoDup (map listing_id matches).
Proof.
  split; [vm_compute; reflexivity|].
  pose (r := @check_for_new_listings reference_runtime example_env_repeating
               URLS_TO_MONITOR example_criteria_wide example_state).
  pose (ms := match fst r with inr ms => ms | inl _ => [] end).
  assert (E : r = (inr ms, snd r)) by (vm_compute; reflexivity).
  exists ms, (snd r). split; [exact E|]. split; [vm_compute; reflexivity|].
  exact (@a_run_returns_each_id_once reference_runtime example_env_repeating
           URLS_TO_MONITOR example_criteria_wide example_state ms (snd r) E).
Defined.

Lemma no_id_is_returned_by_two_runs_witness :
  ∃ l1 l2,
    let r1 := @check_for_new_listings reference_runtime (example_env NoFault)
                URLS_TO_MONITOR SEARCH_CRITERIA example_state in
    let r2 := @check_for_new_listings reference_runtime example_env_later
                URLS_TO_MONITOR example_criteria (snd r1) in
    fst r1 = inr [l1] ∧ fst r2 = inr [l2] ∧ listing_id l1 ≠ listing_id l2.
Proof.
  pose (r1 := @check_for_new_listings reference_runtime (example_env NoFault)
                URLS_TO_MONITOR SEARCH_CRITERIA example_state).
  pose (r2 := @check_for_new_listings reference_runtime example_env_later
                URLS_TO_MONITOR example_criteria (snd r1)).
  pose (m1 := match fst r1 with inr ms => ms | inl _ => [] end).
  pose (m2 := match fst r2 with inr ms => ms | inl _ => [] end).
  assert (E1 : r1 = (inr m1, snd r1)) by (vm_compute; reflexivity).
  assert (E2 : r2 = (inr m2, snd r2)) by (vm_compute; reflexivity).
  assert (H1 : nth 0 m1 example_listing ∈ m1) by (vm_compute; apply list_elem_of_here).
  assert (H2 : nth 0 m2 example_listing ∈ m2) by (vm_compute; apply list_elem_of_here).
  exists (nth 0 m1 example_listing), (nth 0 m2 example_listing).
  split; [vm_compute; reflexivity|]. split; [vm_compute; reflexivity|].
  exact (@no_id_is_returned_by_two_runs reference_runtime (example_env NoFault)
           example_env_later URLS_TO_MONITOR URLS_TO_MONITOR SEARCH_CRITERIA
           example_criteria example_state m1 (snd r1) m2 (snd r2) _ _ E1 E2 H1 H2).
Defined.

Lemma a_run_returns_the_accepted_new_records_witness :
  ∃ ls s1 s',
    @scrape_listings reference_runtime (example_env NoFault) example_url example_state
    = (inr ls, s1)
    ∧ NoDup (map listing_id ls)
    ∧ @check_for_new_listings reference_runtime (example_env NoFault) [example_url]
        SEARCH_CRITERIA example_state
      = (inr (List.filter (@criteria_check reference_runtime SEARCH_CRITERIA) ls), s').
Proof.
  pose (r := @scrape_listings reference_runtime (example_env NoFault) example_url
               example_state).
  pose (ls := match fst r with inr ls => ls | inl _ => [] end).
  assert (E : r = (inr ls, snd r)) by (vm_compute; reflexivity).
  assert (Hnd : NoDup (map listing_id ls)).
  { apply (bool_decide_unpack _). vm_compute. exact I. }
  assert (Hnew : ∀ l, l ∈ ls → listing_id l ∉ known_listings example_state).
  { intros l Hl. apply not_elem_of_empty. }
  destruct (@a_run_returns_the_accepted_new_records reference_runtime
              (example_env NoFault) example_url SEARCH_CRITERIA example_state
              ls (snd r) E Hnd Hnew) as [s' Es'].
  exists ls, (snd r), s'. split; [exact E|]. split; [exact Hnd|exact Es'].
Defined.

Section SeenOnce.
Context {rt : PyRuntime}.

(** X24. A listing that was scraped during one run, whether it was
    accepted or rejected then, is never returned by a later run on the same
    monitor, whatever the later pages and criteria are. *)
Theorem a_listing_seen_once_is_never_returned_later ev1 ev2 urls1 urls2 crit1 crit2
    (s : state) matches1 s1 matches2 s2 url s0 ls s0' l l2 :
  check_for_new_listings ev1 urls1 crit1 s = (inr matches1, s1) →
  check_for_new_listings ev2 urls2 crit2 s1 = (inr matches2, s2) →
  url ∈ urls1 → scrape_listings ev1 url s0 = (inr ls, s0') → l ∈ ls →
  l2 ∈ matches2 →
  listing_id l2 ≠ listing_id l.
Proof.
  intros E1 E2 Hurl Els Hl Hl2 Heq.
  destruct (check_for_new_listings_run ev1 urls1 crit1 s)
    as (m & sa & _ & E1' & _ & Hk & _).
  rewrite E1 in E1'. injection E1' as _ ->.
  destruct (check_for_new_listings_reports _ _ _ _ _ _ E2) as (_ & H2 & _).
  eapply Forall_forall in H2 as (H2 & _); [|exact Hl2].
  apply H2. rewrite save_known_listings_known, Hk, Heq.
  apply elem_of_union_r, elem_of_list_to_set, list_elem_of_In, in_concat.
  exists (scraped_ids ev1 url). split.
  - apply in_map, list_elem_of_In, Hurl.
  - rewrite <- (scrape_listings_ids _ _ _ _ _ Els).
    apply in_map, list_elem_of_In, Hl.
Qed.
End SeenOnce.

Lemma a_listing_seen_once_is_never_returned_later_witness :
  ∃ l l2,
    let r1 := @check_for_new_listings reference_runtime (example_env NoFault)
                URLS_TO_MONITOR SEARCH_CRITERIA example_state in
    let r2 := @check_for_new_listings reference_runtime example_env_later
                URLS_TO_MONITOR example_criteria (snd r1) in
    listing_id l = py "a2" ∧ fst r2 = inr [l2] ∧ listing_id l2 ≠ listing_id l.
Proof.
  pose (r1 := @check_for_new_listings reference_runtime (example_env NoFault)
                URLS_TO_MONITOR SEARCH_CRITERIA example_state).
  pose (r2 := @check_for_new_listings reference_runtime example_env_later
                URLS_TO_MONITOR example_criteria (snd r1)).
  pose (rs := @scrape_listings reference_runtime (example_env NoFault) example_url
                example_state).
  pose (m1 := match fst r1 with inr ms => ms | inl _ => [] end).
  pose (m2 := match fst r2 with inr ms => ms | inl _ => [] end).
  pose (ls := match fst rs with inr ls => ls | inl _ => [] end).
  assert (E1 : r1 = (inr m1, snd r1)) by (vm_compute; reflexivity).
  assert (E2 : r2 = (inr m2, snd r2)) by (vm_compute; reflexivity).
  assert (Es : rs = (inr ls, snd rs)) by (vm_compute; reflexivity).
  assert (Hl : nth 1 ls example_listing ∈ ls)
    by (vm_compute; apply list_elem_of_further, list_elem_of_here).
  assert (H2 : nth 0 m2 example_listing ∈ m2) by (vm_compute; apply list_elem_of_here).
  assert (Hurl : example_url ∈ URLS_TO_MONITOR)
    by (unfold URLS_TO_MONITOR, example_url; apply list_elem_of_here).
  exists (nth 1 ls example_listing), (nth 0 m2 example_listing).
  split; [vm_compute; reflexivity|]. split; [vm_compute; reflexivity|].
  exact (@a_listing_seen_once_is_never_returned_later reference_runtime
           (example_env NoFault) example_env_later URLS_TO_MONITOR URLS_TO_MONITOR
           SEARCH_CRITERIA example_criteria example_state m1 (snd r1) m2 (snd r2)
           example_url example_state ls (snd rs) _ _ E1 E2 Hurl Es Hl H2).
Defined.

(** ** Criteria matcher *)
Section MatcherMore.
Context {rt : PyRuntime}.

Lemma num_lt_spec a b : num_lt a b = true ↔ ¬ num_le b a.
Proof.
  destruct a as [x|], b as [y|]; simpl.
  - unfold Qlt_bool. by rewrite negb_true_iff, <- not_true_iff_false, Qle_bool_iff.
  - split; [tauto|done].
  - split; [done|tauto].
  - split; [done|tauto].
Qed.

Lemma num_le_dec a b : num_le a b ∨ ¬ num_le a b.
Proof.
  destruct a as [x|], b as [y|]; simpl; try tauto.
  destruct (Qlt_le_dec y x) as [H|H]; [right|by left]. by apply Qlt_not_le.
Qed.

Lemma num_lt_false a b : num_lt a b = false ↔ num_le b a.
Proof.
  rewrite <- not_true_iff_false, num_lt_spec. destruct (num_le_dec b a); tauto.
Qed.

Lemma any_keyword_in_spec keywords text :
  any_keyword_in keywords text = true
  ↔ ∃ keyword, keyword ∈ keywords ∧ substring (str_lower keyword) text.
Proof.
  unfold any_keyword_in. rewrite existsb_exists. split.
  - intros (k & Hk & Hin). exists k. by rewrite list_elem_of_In, <- str_in_spec.
  - intros (k & Hk & Hin). exists k. by rewrite <- list_elem_of_In, str_in_spec.
Qed.

(** The four tests of the matcher, as one conjunction. *)
Lemma criteria_check_tests crit l :
  criteria_check crit l =
  negb (num_gt (price l) (Fin 0)
        && (num_lt (price l) (min_price crit) || num_gt (price l) (max_price crit)))
  && negb (num_gt (area l) (Fin 0) && num_lt (area l) (min_area crit))
  && (is_empty_list (keywords_include crit)
      || any_keyword_in (keywords_include crit)
           (str_lower (title l ++ py " " ++ description l)))
  && negb (negb (is_empty_list (keywords_exclude crit))
           && any_keyword_in (keywords_exclude crit)
                (str_lower (title l ++ py " " ++ description l))).
Proof.
  unfold criteria_check, is_empty_list.
  change (title l ++ [32] ++ description l) with (title l ++ py " " ++ description l).
  destruct (num_gt (price l) (Fin 0) && _); [done|].
  destruct (num_gt (area l) (Fin 0) && _); [done|].
  destruct (keywords_include crit), (keywords_exclude crit); cbn [negb andb orb];
    repeat match goal with |- context [any_keyword_in ?k ?t] =>
             destruct (any_keyword_in k t) end; done.
Qed.

Lemma price_test p lo hi :
  negb (num_gt p (Fin 0) && (num_lt p lo || num_gt p hi)) = true
  ↔ (¬ num_le p (Fin 0) → num_le lo p ∧ num_le p hi).
Proof.
  unfold num_gt.
  destruct (num_lt (Fin 0) p) eqn:E0, (num_lt p lo) eqn:E1, (num_lt hi p) eqn:E2;
    cbn; rewrite ?num_lt_spec, ?num_lt_false in *; split; try done; tauto.
Qed.

Lemma area_test a lo :
  negb (num_gt a (Fin 0) && num_lt a lo) = true
  ↔ (¬ num_le a (Fin 0) → num_le lo a).
Proof.
  unfold num_gt.
  destruct (num_lt (Fin 0) a) eqn:E0, (num_lt a lo) eqn:E1;
    cbn; rewrite ?num_lt_spec, ?num_lt_false in *; split; try done; tauto.
Qed.

Lemma include_test keywords text :
  is_empty_list keywords || any_keyword_in keywords text = true
  ↔ keywords = []
    ∨ ∃ keyword, keyword ∈ keywords ∧ substring (str_lower keyword) text.
Proof.
  rewrite orb_true_iff, any_keyword_in_spec.
  by destruct keywords; split; intros [?|?]; auto.
Qed.

Lemma exclude_test keywords text :
  negb (negb (is_empty_list keywords) && any_keyword_in keywords text) = true
  ↔ ∀ keyword, keyword ∈ keywords → ¬ substring (str_lower keyword) text.
Proof.
  destruct (any_keyword_in keywords text) eqn:E.
  - apply any_keyword_in_spec in E as (k & Hk & Hin).
    destruct keywords; [by apply elem_of_nil in Hk|]. cbn. split; [done|].
    intros H. by destruct (H k).
  - rewrite andb_false_r. split; [|done]. intros _ k Hk Hin.
    apply not_true_iff_false in E. apply E, any_keyword_in_spec. eauto.
Qed.

(** X14. [meets_criteria] never raises and leaves the state alone, and it
    accepts a record exactly when: its price is not positive or lies
    between [min_price] and [max_price], both included; its area is not
    positive or is at least [min_area]; the include list is empty or one
    of its lower-cased keywords occurs in the lower-cased title and
    description; and no lower-cased exclude keyword occurs there. *)
Theorem meets_criteria_accepts_exactly crit l (s : state) :
  let haystack := str_lower (title l ++ py " " ++ description l) in
  ∃ verdict,
    meets_criteria crit l s = (inr verdict, s)
    ∧ (verdict = true ↔
       (¬ num_le (price l) (Fin 0) →
        num_le (min_price crit) (price l) ∧ num_le (price l) (max_price crit))
       ∧ (¬ num_le (area l) (Fin 0) → num_le (min_area crit) (area l))
       ∧ (keywords_include crit = []
          ∨ ∃ keyword, keyword ∈ keywords_include crit
                       ∧ substring (str_lower keyword) haystack)
       ∧ (∀ keyword, keyword ∈ keywords_exclude crit →
                     ¬ substring (str_lower keyword) haystack)).
Proof.
  intros haystack. eexists. split; [apply meets_criteria_run|].
  rewrite criteria_check_tests. fold haystack.
  rewrite !andb_true_iff, price_test, area_test, include_test, exclude_test.
  tauto.
Qed.

(** X15. An empty string among the exclude keywords rejects every record;
    an empty string among the include keywords makes the include test
    pass for every record. *)
Theorem empty_keyword_matches_everything crit l (s : state) :
  str_lower [] = [] →
  ([] ∈ keywords_exclude crit → meets_criteria crit l s = (inr false, s))
  ∧ ([] ∈ keywords_include crit →
     any_keyword_in (keywords_include crit)
       (str_lower (title l ++ py " " ++ description l)) = true).
Proof.
  intros Hlow.
  assert (Hany : ∀ ks text, [] ∈ ks → any_keyword_in ks text = true).
  { intros ks text Hin. apply any_keyword_in_spec. exists []. split; [done|].
    rewrite Hlow. by exists [], text. }
  split; intros Hin; [|by apply Hany].
  rewrite meets_criteria_run, criteria_check_tests, (Hany _ _ Hin).
  destruct (keywords_exclude crit); [by apply elem_of_nil in Hin|].
  cbn. by rewrite !andb_false_r.
Qed.
End MatcherMore.

Lemma meets_criteria_accepts_exactly_witness :
  ∃ verdict,
    @meets_criteria reference_runtime example_criteria example_listing example_state
    = (inr verdict, example_state)
    ∧ verdict = true.
Proof.
  destruct (@meets_criteria_accepts_exactly reference_runtime example_criteria
              example_listing example_state) as (verdict & E & H).
  exists verdict. split; [exact E|]. apply H.
  split; [intros Hp; destruct Hp; compute; discriminate|].
  split; [intros Ha; destruct Ha; compute; discriminate|].
  split.
  - right. exists (py "house"). split; [apply list_elem_of_here|].
    apply str_in_spec. vm_compute. reflexivity.
  - intros keyword Hk. apply elem_of_nil in Hk. destruct Hk.
Defined.

Lemma empty_keyword_matches_everything_witness :
  @str_lower reference_runtime [] = []
  ∧ @meets_criteria reference_runtime
      {| max_price := Fin 150000; min_price := Fin 10000;
         keywords_include := []; keywords_exclude := [py "sold"; []];
         min_area := Fin 50 |} example_listing example_state
    = (inr false, example_state).
Proof.
  split; [reflexivity|].
  apply (@empty_keyword_matches_everything reference_runtime); [reflexivity|].
  apply list_elem_of_further, list_elem_of_here.
Defined.

(** ** Seen-state store *)
Section StoreMore.
Context {rt : PyRuntime}.

Lemma find_absent_key (items : list (pystr * json)) key :
  (∀ kv, kv ∈ items → fst kv ≠ key) →
  List.find (fun kv => bool_decide (fst kv = key)) items = None.
Proof.
  induction items as [|kv items IH]; [done|]. intros H. cbn [List.find].
  rewrite bool_decide_eq_false_2 by (apply H; by left).
  apply IH. intros kv' Hkv'. apply H. by right.
Qed.

Lemma load_known_listings_run (s : state) text data v k :
  data_file s = Present text → json_load text = Some data →
  dict_get data (py "known_listings") (JList []) = inr v →
  py_set v = inr k →
  load_known_listings s = (inr k, s).
Proof.
  intros Hd Hj Hg Hs.
  unfold load_known_listings, try_except, mbind, M_bind, get_data_file, lift.
  by rewrite Hd, Hj, Hg, Hs.
Qed.

(** X16. A data file that holds a JSON object without the key
    [known_listings] loads as the empty set: nothing is logged and nothing
    changes. *)
Theorem load_without_the_key_gives_the_empty_set (s : state) text items :
  data_file s = Present text →
  json_load text = Some (JDict items) →
  (∀ kv, kv ∈ items → fst kv ≠ py "known_listings") →
  load_known_listings s = (inr ∅, s).
Proof.
  intros Hd Hj Hkey.
  apply (load_known_listings_run s text (JDict items) (JList [])); [done|done| |done].
  cbn [dict_get]. by rewrite find_absent_key.
Qed.

(** X17. A data file whose [known_listings] is a JSON string is not
    refused: it loads as the set of the one-character strings of that
    string. *)
Theorem load_reads_a_string_as_its_characters (s : state) text str items :
  data_file s = Present text →
  json_load text = Some (JDict ((py "known_listings", JStr str) :: items)) →
  load_known_listings s = (inr (list_to_set (map (fun c => [c]) str)), s).
Proof.
  intros Hd Hj.
  apply (load_known_listings_run s text _ (JStr str) _ Hd Hj); [|done].
  cbn [dict_get List.find fst snd]. by rewrite bool_decide_eq_true_2.
Qed.

(** X18. Save, then load in a new process: when the save succeeds and
    [json.load] reads the written text back as the document that was
    dumped, the new monitor loads exactly the set that was saved. *)
Theorem a_saved_set_is_loaded_back ev (s : state) :
  save_fault ev = NoFault →
  json_load (json_dump (elements (known_listings s)) (now ev (clock s)))
  = Some (state_document (elements (known_listings s)) (now ev (clock s))) →
  ∃ s1 s2,
    save_known_listings ev s = (inr tt, s1)
    ∧ load_known_listings (restart s1) = (inr (known_listings s), s2).
Proof.
  intros Hf Hj. rewrite save_known_listings_run, Hf.
  eexists _, _. split; [done|].
  erewrite load_known_listings_reads_back; [|done|exact Hj].
  f_equal. f_equal. apply list_to_set_elements_L.
Qed.
End StoreMore.

Lemma load_without_the_key_gives_the_empty_set_witness :
  data_file example_saved_state = Present (json_dump [py "a1"] example_stamp)
  ∧ @load_known_listings (constant_runtime (JDict [(py "last_updated", JStr example_stamp)]))
      example_saved_state = (inr ∅, example_saved_state).
Proof.
  split; [reflexivity|].
  apply (@load_without_the_key_gives_the_empty_set
           (constant_runtime (JDict [(py "last_updated", JStr example_stamp)]))
           example_saved_state (json_dump [py "a1"] example_stamp)
           [(py "last_updated", JStr example_stamp)]); [reflexivity|reflexivity|].
  intros kv Hkv%list_elem_of_singleton. subst kv. vm_compute. discriminate.
Defined.

Lemma load_reads_a_string_as_its_characters_witness :
  data_file example_saved_state = Present (json_dump [py "a1"] example_stamp)
  ∧ @load_known_listings
      (constant_runtime (JDict [(py "known_listings", JStr (py "a1"))]))
      example_saved_state
    = (inr (list_to_set [py "a"; py "1"]), example_saved_state).
Proof.
  split; [reflexivity|].
  exact (@load_reads_a_string_as_its_characters
           (constant_runtime (JDict [(py "known_listings", JStr (py "a1"))]))
           example_saved_state (json_dump [py "a1"] example_stamp) (py "a1") []
           eq_refl eq_refl).
Defined.

Lemma a_saved_set_is_loaded_back_witness :
  save_fault (example_env NoFault) = NoFault
  ∧ ∃ s1 s2,
      save_known_listings (example_env NoFault) example_known_state = (inr tt, s1)
      ∧ @load_known_listings example_runtime (restart s1)
        = (inr (known_listings example_known_state), s2).
Proof.
  split; [reflexivity|].
  apply (@a_saved_set_is_loaded_back example_runtime (example_env NoFault)
           example_known_state eq_refl).
  vm_compute. reflexivity.
Defined.

(** ** Notification and the run *)





Section RunFacts.
Context {rt : PyRuntime}.

(** What the message of a run is: none without matches or when SMTP
    fails. *)
Lemma run_check_run ev mail urls crit (w : process) matches s' :
  check_for_new_listings ev urls crit (monitor w) = (inr matches, s') →
  ∃ w', run_check ev mail urls crit w = (inr tt, w')
        ∧ monitor w' = s'
        ∧ outbox w' = outbox w ++
            match matches with
            | [] => []
            | _ :: _ =>
              if smtp_fails mail then [] else [email_message mail crit matches]
            end.
Proof.
  intros E.
  unfold run_check, mbind, P_bind, p_try_except, on_monitor, run_logger.
  cbn [monitor outbox run_log]. rewrite E.
  destruct matches as [|l matches].
  - eexists. split; [reflexivity|]. cbn. by rewrite app_nil_r.
  - unfold send_email_notification, p_try_except, mbind, P_bind, smtp_send, run_logger.
    cbn [monitor outbox run_log].
    destruct (smtp_fails mail); eexists; (split; [reflexivity|]); cbn;
      by rewrite ?app_nil_r.
Qed.

(** X20. [run_check] never raises. It leaves the monitor exactly as
    [check_for_new_listings] alone does, so a failed delivery undoes
    nothing; and it delivers one message, for all the records the check
    returned, when there is at least one and the SMTP session goes through,
    and no message otherwise. *)
Theorem run_check_sends_one_message_for_the_matches ev mail urls crit (w : process) :
  ∃ matches s' w',
    check_for_new_listings ev urls crit (monitor w) = (inr matches, s')
    ∧ run_check ev mail urls crit w = (inr tt, w')
    ∧ monitor w' = s'
    ∧ outbox w' = outbox w ++
        match matches with
        | [] => []
        | _ :: _ =>
          if smtp_fails mail then [] else [email_message mail crit matches]
        end.
Proof.
  destruct (check_for_new_listings_run ev urls crit (monitor w))
    as (matches & s1 & _ & E & _).
  destruct (run_check_run ev mail urls crit w _ _ E) as (w' & Hw & Hm & Ho).
  by eexists _, _, w'.
Qed.

(** X21. Two runs of [run_check] on the same monitor over sources that
    yield the same pages: the second delivers no message, whatever the
    criteria, the saves and the first delivery did. *)
Theorem a_second_run_check_sends_nothing ev1 ev2 mail1 mail2 urls crit1 crit2
    (w : process) :
  (∀ url, url ∈ urls → web ev2 url = web ev1 url) →
  ∃ w1 w2,
    run_check ev1 mail1 urls crit1 w = (inr tt, w1)
    ∧ run_check ev2 mail2 urls crit2 w1 = (inr tt, w2)
    ∧ outbox w2 = outbox w1.
Proof.
  intros Hweb.
  destruct (check_for_new_listings_run ev1 urls crit1 (monitor w))
    as (matches1 & s0 & _ & E1 & _ & Hk1 & _).
  destruct (run_check_run ev1 mail1 urls crit1 w _ _ E1) as (w1 & Hw1 & Hm1 & _).
  destruct (check_known_returns_nothing ev2 urls crit2 (monitor w1)) as (s2 & E2 & _).
  { rewrite Hm1, save_known_listings_known, Hk1. intros id Hid.
    apply elem_of_union_r, elem_of_list_to_set.
    replace (concat (map (scraped_ids ev1) urls))
      with (concat (map (scraped_ids ev2) urls)); [done|].
    f_equal. apply map_ext_in. intros url Hurl%list_elem_of_In.
    unfold scraped_ids. by rewrite Hweb. }
  destruct (run_check_run ev2 mail2 urls crit2 w1 _ _ E2) as (w2 & Hw2 & _ & Ho2).
  exists w1, w2. split; [done|]. split; [done|]. by rewrite Ho2, app_nil_r.
Qed.

Lemma load_known_listings_returns (s : state) :
  ∃ k s', load_known_listings s = (inr k, s') ∧ data_file s' = data_file s.
Proof.
  unfold load_known_listings, try_except, mbind, M_bind, get_data_file, lift.
  destruct s as [known file clk lg]. cbn [data_file].
  destruct file as [| |text]; [by eexists _, _..|].
  destruct (json_load text) as [data|]; [|by eexists _, _].
  destruct (dict_get data _ _) as [e|v]; [by eexists _, _|].
  destruct (py_set v) as [e|ids]; by eexists _, _.
Qed.

Lemma run_check_returns ev mail urls crit (w : process) :
  ∃ w', run_check ev mail urls crit w = (inr tt, w').
Proof.
  destruct (check_for_new_listings_run ev urls crit (monitor w))
    as (matches & s1 & _ & E & _).
  destruct (run_check_run ev mail urls crit w _ _ E) as (w' & Hw & _).
  by exists w'.
Qed.

Lemma main_run ev mail urls crit (w : process) k s0 :
  load_known_listings (monitor w) = (inr k, s0) →
  ∃ w0 w1 w2,
    monitor w0 = {| known_listings := k; data_file := data_file s0;
                    clock := clock s0; log := log s0 |}
    ∧ outbox w0 = outbox w
    ∧ run_check ev mail urls crit w0 = (inr tt, w1)
    ∧ main ev mail urls crit w = (inr tt, w2)
    ∧ monitor w2 = monitor w1 ∧ outbox w2 = outbox w1.
Proof.
  intros El.
  unfold main, mbind, P_bind, on_monitor, run_logger, init, mbind, M_bind.
  cbn [monitor outbox run_log]. rewrite El. cbn [set_known].
  match goal with |- context [run_check _ _ _ _ ?w0] =>
    destruct (run_check_returns ev mail urls crit w0) as [w1 E];
    exists w0, w1
  end.
  rewrite E. eexists. repeat split; reflexivity || exact E.
Qed.

(** X22. [main] never raises: whatever the data file holds, the fetches
    give, the save does and the SMTP session does, one single-mode run
    of the program ends normally. *)
Theorem main_always_ends_normally ev mail urls crit (w : process) :
  ∃ w', main ev mail urls crit w = (inr tt, w').
Proof.
  destruct (load_known_listings_returns (monitor w)) as (k & s0 & El & _).
  destruct (main_run ev mail urls crit w k s0 El) as (w0 & w1 & w2 & _ & _ & _ & E & _).
  by exists w2.
Qed.

(** X23. The program run twice, each time in a new process, over sources
    that yield the same pages: when the save of the first run succeeded and
    [json.load] reads the file back as the document that was dumped, the
    second run delivers no message. *)
Theorem a_second_process_sends_nothing ev1 ev2 mail1 mail2 urls crit1 crit2
    (w : process) :
  (∀ url, url ∈ urls → web ev2 url = web ev1 url) →
  save_fault ev1 = NoFault →
  let w1 := snd (main ev1 mail1 urls crit1 w) in
  (∀ text, data_file (monitor w1) = Present text →
     ∃ stamp, json_load text
              = Some (state_document (elements (known_listings (monitor w1))) stamp)) →
  ∃ w2,
    main ev2 mail2 urls crit2
      {| monitor := restart (monitor w1); outbox := outbox w1; run_log := run_log w1 |}
    = (inr tt, w2)
    ∧ outbox w2 = outbox w1.
Proof.
  intros Hweb Hf w1 Hread.
  destruct (load_known_listings_returns (monitor w)) as (k & s0 & El & _).
  destruct (main_run ev1 mail1 urls crit1 w k s0 El)
    as (w0 & wa & wb & Hm0 & _ & Erun & Emain & Hmb & _).
  assert (Hw1 : w1 = wb) by (subst w1; by rewrite Emain).
  destruct (check_for_new_listings_run ev1 urls crit1 (monitor w0))
    as (matches1 & sa & _ & E1 & _ & Hk1 & _).
  destruct (run_check_run ev1 mail1 urls crit1 w0 _ _ E1) as (wa' & Erun' & Hma & _).
  rewrite Erun in Erun'. injection Erun' as <-.
  assert (Hmon : monitor w1 = snd (save_known_listings ev1 sa)) by congruence.
  assert (∃ text, data_file (monitor w1) = Present text) as [text Htext].
  { rewrite Hmon, save_known_listings_run, Hf. by eexists. }
  destruct (Hread text Htext) as [stamp Hj].
  set (wr := {| monitor := restart (monitor w1); outbox := outbox w1;
                run_log := run_log w1 |}).
  assert (El2 : load_known_listings (monitor wr)
                = (inr (list_to_set (elements (known_listings (monitor w1)))),
                   monitor wr)).
  { by apply (load_known_listings_reads_back _ text _ stamp). }
  destruct (main_run ev2 mail2 urls crit2 wr _ _ El2)
    as (v0 & v1 & v2 & Hv0 & Ho0 & Erun2 & Emain2 & _ & Ho2).
  destruct (check_known_returns_nothing ev2 urls crit2 (monitor v0)) as (s2 & E2 & _).
  { rewrite Hv0. cbn [known_listings]. rewrite list_to_set_elements_L.
    rewrite Hmon, save_known_listings_known, Hk1. intros id Hid.
    apply elem_of_union_r, elem_of_list_to_set.
    replace (concat (map (scraped_ids ev1) urls))
      with (concat (map (scraped_ids ev2) urls)); [done|].
    f_equal. apply map_ext_in. intros url Hurl%list_elem_of_In.
    unfold scraped_ids. by rewrite Hweb. }
  destruct (run_check_run ev2 mail2 urls crit2 v0 _ _ E2) as (v1' & Erun2' & _ & Ho1).
  rewrite Erun2 in Erun2'. injection Erun2' as <-.
  exists v2. split; [done|]. by rewrite Ho2, Ho1, Ho0, app_nil_r.
Qed.
End RunFacts.

Lemma a_second_run_check_sends_nothing_witness :
  (∀ url, url ∈ URLS_TO_MONITOR →
          web (example_env OpenFails) url = web (example_env NoFault) url)
  ∧ ∃ w1 w2,
      @run_check reference_runtime (example_env NoFault) (example_mail false)
        URLS_TO_MONITOR SEARCH_CRITERIA example_process = (inr tt, w1)
      ∧ @run_check reference_runtime (example_env OpenFails) (example_mail false)
          URLS_TO_MONITOR SEARCH_CRITERIA w1 = (inr tt, w2)
      ∧ outbox w2 = outbox w1.
Proof.
  assert (Hweb : ∀ url, url ∈ URLS_TO_MONITOR →
            web (example_env OpenFails) url = web (example_env NoFault) url)
    by (intros url Hurl; reflexivity).
  split; [exact Hweb|].
  exact (@a_second_run_check_sends_nothing reference_runtime (example_env NoFault)
           (example_env OpenFails) (example_mail false) (example_mail false)
           URLS_TO_MONITOR SEARCH_CRITERIA SEARCH_CRITERIA example_process Hweb).
Defined.

Lemma a_second_process_sends_nothing_witness :
  save_fault (example_env NoFault) = NoFault
  ∧ ∃ w2,
      @main example_runtime (example_env OpenFails) (example_mail false)
        URLS_TO_MONITOR SEARCH_CRITERIA
        (let w1 := snd (@main example_runtime (example_env NoFault) (example_mail false)
                          URLS_TO_MONITOR SEARCH_CRITERIA example_process) in
         {| monitor := restart (monitor w1); outbox := outbox w1;
            run_log := run_log w1 |})
      = (inr tt, w2)
      ∧ length (outbox w2) = 1%nat.
Proof.
  split; [reflexivity|].
  destruct (@a_second_process_sends_nothing example_runtime (example_env NoFault)
              (example_env OpenFails) (example_mail false) (example_mail false)
              URLS_TO_MONITOR SEARCH_CRITERIA SEARCH_CRITERIA example_process)
    as (w2 & E & Ho).
  - intros url Hurl. reflexivity.
  - reflexivity.
  - intros text Htext. exists example_stamp.
    vm_compute in Htext. injection Htext as <-. vm_compute. reflexivity.
  - exists w2. split; [exact E|]. rewrite Ho. vm_compute. reflexivity.
Defined.
